(** * opentrustregion: the build-and-stage step of [setup.py]

    A shallow embedding of [setup.py]: the module-level constants, and
    [CMakeBuild.run], the [build_py] override that creates the build
    directory, drives CMake (configure, then build), copies the two shared
    libraries into the [pyopentrustregion] package directory and finally
    calls the inherited [build_py.run].

    The script is a sequence of calls into the Python standard library, so
    the development has two layers:
    - a model of the interpreter's surroundings: a file system (a finite map
      from absolute paths to nodes), the exceptions the library calls raise,
      and [os.makedirs], [subprocess.check_call] and [shutil.copy] written
      after their CPython definitions;
    - the script itself, written in a state-and-exception monad over that
      model; every library call is recorded with its arguments and outcome. *)

From Stdlib Require Import ZArith NArith String List Lia.
From stdpp Require Import base option list strings gmap fin_maps.

Local Open Scope string_scope.
Local Open Scope list_scope.

(** ** Paths *)

(** An absolute path is the list of its components below the root; the root
    itself is the empty list. *)
Definition path := list string.

(** [p / name] of [pathlib], [os.path.join] for one further component. *)
Definition joinpath (p : path) (name : string) : path := p ++ [name].
Infix "</>" := joinpath (at level 40, left associativity).

(** [Path.parent] and [os.path.dirname]: all components but the last. *)
Definition parent (p : path) : path := removelast p.

(** [os.path.basename]. *)
Definition basename (p : path) : string := List.last p "".

(** ** File-system nodes *)

(** A regular file has its bytes and its permission bits ([S_IMODE] of
    [st_mode]); a directory has its permission bits. Links and special files
    are not modelled. *)
Inductive node : Type :=
| File (data : list Byte.byte) (mode : N)
| Dir (mode : N).

(** The table of entries. The root is not stored: it always exists. *)
Abbreviation FS := (gmap path node).

Definition stat (fs : FS) (p : path) : option node :=
  match p with
  | [] => Some (Dir 493%N)
  | _ => fs !! p
  end.

(** [os.path.exists] and [os.path.isdir]. *)
Definition path_exists (fs : FS) (p : path) : bool :=
  match stat fs p with Some _ => true | None => false end.

Definition isdir (fs : FS) (p : path) : bool :=
  match stat fs p with Some (Dir _) => true | _ => false end.

Definition isfile (fs : FS) (p : path) : bool :=
  match stat fs p with Some (File _ _) => true | _ => false end.

(** Every stored entry lies in a directory. *)
Definition wf_fs (fs : FS) : Prop :=
  map_Forall (fun p _ => p <> [] /\ isdir fs (parent p) = true) fs.

(** ** Exceptions *)

Inductive os_error_kind : Type :=
| FileNotFoundError
| FileExistsError
| IsADirectoryError
| NotADirectoryError
| PermissionError.

Inductive exn : Type :=
| OSError (kind : os_error_kind) (filename : path)
| SameFileError (src dst : path)
| CalledProcessError (returncode : Z) (cmd : list string)
| Exception (msg : string).

(** [isinstance(e, OSError)]: [shutil.SameFileError] derives from
    [shutil.Error], which derives from [OSError]. *)
Definition is_OSError (e : exn) : bool :=
  match e with
  | OSError _ _ | SameFileError _ _ => true
  | CalledProcessError _ _ | Exception _ => false
  end.

Inductive result (A : Type) : Type :=
| Ok (a : A)
| Raise (e : exn).
Arguments Ok {A} a.
Arguments Raise {A} e.

(** ** The state-and-exception monad

    A computation runs on a state and returns the state it leaves together
    with a value or the exception it raised; whatever it did to the state
    before raising stays done. *)
Definition M (S A : Type) : Type := S -> S * result A.

Definition ret {S A} (a : A) : M S A := fun s => (s, Ok a).
Definition raise {S A} (e : exn) : M S A := fun s => (s, Raise e).

Definition bind {S A B} (m : M S A) (k : A -> M S B) : M S B :=
  fun s =>
    match m s with
    | (s', Ok a) => k a s'
    | (s', Raise e) => (s', Raise e)
    end.

(** [try: m  except ...: h e]. *)
Definition try_except {S A} (m : M S A) (h : exn -> M S A) : M S A :=
  fun s =>
    match m s with
    | (s', Ok a) => (s', Ok a)
    | (s', Raise e) => h e s'
    end.

Definition get {S} : M S S := fun s => (s, Ok s).

Declare Scope py_scope.
Delimit Scope py_scope with py.
Notation "x <- m ;; k" := (bind m (fun x => k))
  (at level 100, m at next level, right associativity) : py_scope.
Notation "m ;;; k" := (bind m (fun _ => k))
  (at level 100, right associativity) : py_scope.
Local Open Scope py_scope.

(** ** Path resolution *)

(** Looking up the components [rest] one after the other below the
    directory [dir]: every one of them has to be a directory. The answer is
    the error of the first that is not: [NotADirectoryError] for a regular
    file ([ENOTDIR]), [FileNotFoundError] for a missing entry ([ENOENT]). *)
Fixpoint walk (fs : FS) (dir : path) (rest : list string)
  : option os_error_kind :=
  match rest with
  | [] => None
  | c :: rest' =>
      match stat fs (dir </> c) with
      | Some (Dir _) => walk fs (dir </> c) rest'
      | Some (File _ _) => Some NotADirectoryError
      | None => Some FileNotFoundError
      end
  end.

(** ** The operating system *)

(** The system calls the library functions below end in. Whether the
    process may perform one is the operating system's decision (owner,
    permission bits, mount flags); it is a parameter of the model. *)
Inductive syscall : Type :=
| SysMkdir (p : path)
| SysOpenRead (p : path)
| SysOpenWrite (p : path)
| SysChmod (p : path).

Section OS.

Variable permitted : FS -> syscall -> bool.
Variable umask : N.

(** Mode of a newly created entry: the requested bits without the umask. *)
Definition created_mode (requested : N) : N := N.ldiff requested umask.

(** [os.mkdir(p, mode)]. *)
Definition mkdir (p : path) (mode : N) : M FS unit :=
  fun fs =>
    match stat fs p with
    | Some _ => (fs, Raise (OSError FileExistsError p))
    | None =>
        match stat fs (parent p) with
        | None => (fs, Raise (OSError FileNotFoundError p))
        | Some (File _ _) => (fs, Raise (OSError NotADirectoryError p))
        | Some (Dir _) =>
            if permitted fs (SysMkdir p)
            then (<[p := Dir (created_mode mode)]> fs, Ok tt)
            else (fs, Raise (OSError PermissionError p))
        end
    end.

(** The last statement of [os.makedirs]:
<<
    try:
        mkdir(name, mode)
    except OSError:
        if not exist_ok or not path.isdir(name):
            raise
>> *)
Definition mkdir_leaf (name : path) (mode : N) (exist_ok : bool) : M FS unit :=
  try_except (mkdir name mode)
    (fun e =>
       if is_OSError e
       then fs <- get ;;
            if negb exist_ok || negb (isdir fs name) then raise e else ret tt
       else raise e).

(** [os.makedirs(name, mode, exist_ok)], on the reversed list of components
    so that the recursion on [head] is structural:
<<
    head, tail = path.split(name)
    if head and tail and not path.exists(head):
        try:
            makedirs(head, exist_ok=exist_ok)
        except FileExistsError:
            pass
    mkdir_leaf(name, mode, exist_ok)
>>
    For an absolute path [head] is never empty, and [tail] is empty only
    for the root; paths are normalised, so no component is [.] and the
    branch of CPython for a trailing [.] is not there. The recursive call
    takes the default [mode], [0o777]. *)
Fixpoint makedirs_rev (rname : list string) (mode : N) (exist_ok : bool)
  : M FS unit :=
  let name := rev rname in
  (match rname with
   | [] => ret tt
   | _ :: rhead =>
       fs <- get ;;
       if negb (path_exists fs (rev rhead))
       then try_except (makedirs_rev rhead 511%N exist_ok)
              (fun e => match e with
                        | OSError FileExistsError _ => ret tt
                        | _ => raise e
                        end)
       else ret tt
   end) ;;;
  mkdir_leaf name mode exist_ok.

Definition makedirs (name : path) (mode : N) (exist_ok : bool) : M FS unit :=
  makedirs_rev (rev name) mode exist_ok.

(** [shutil._samefile]: without links two paths name the same file exactly
    when both exist and are equal. *)
Definition samefile (fs : FS) (src dst : path) : bool :=
  path_exists fs src && path_exists fs dst && bool_decide (src = dst).

(** [open(src, 'rb').read()]. The directory of [src] is resolved first:
    when a component of it is a regular file the error is
    [NotADirectoryError], when one is missing, or [src] itself is, it is
    [FileNotFoundError]. *)
Definition read_file (src : path) : M FS (list Byte.byte) :=
  fun fs =>
    match walk fs [] (parent src) with
    | Some kind => (fs, Raise (OSError kind src))
    | None =>
        match stat fs src with
        | None => (fs, Raise (OSError FileNotFoundError src))
        | Some (Dir _) => (fs, Raise (OSError IsADirectoryError src))
        | Some (File data _) =>
            if permitted fs (SysOpenRead src)
            then (fs, Ok data)
            else (fs, Raise (OSError PermissionError src))
        end
    end.

(** [open(dst, 'wb').write(data)]: an existing file is truncated and keeps
    its mode, a missing one is created in its directory. Without links the
    path written is the only one that changes. *)
Definition write_file (dst : path) (data : list Byte.byte) : M FS unit :=
  fun fs =>
    match stat fs dst with
    | Some (Dir _) => (fs, Raise (OSError IsADirectoryError dst))
    | Some (File _ mode) =>
        if permitted fs (SysOpenWrite dst)
        then (<[dst := File data mode]> fs, Ok tt)
        else (fs, Raise (OSError PermissionError dst))
    | None =>
        match stat fs (parent dst) with
        | None => (fs, Raise (OSError FileNotFoundError dst))
        | Some (File _ _) => (fs, Raise (OSError NotADirectoryError dst))
        | Some (Dir _) =>
            if permitted fs (SysOpenWrite dst)
            then (<[dst := File data (created_mode 438%N)]> fs, Ok tt)
            else (fs, Raise (OSError PermissionError dst))
        end
    end.

(** [shutil.copyfile(src, dst)]:
<<
    if _samefile(src, dst):
        raise SameFileError(...)
    with open(src, 'rb') as fsrc:
        with open(dst, 'wb') as fdst:
            copyfileobj(fsrc, fdst)
    return dst
>> *)
Definition copyfile (src dst : path) : M FS path :=
  fs <- get ;;
  if samefile fs src dst then raise (SameFileError src dst)
  else
    data <- read_file src ;;
    write_file dst data ;;;
    ret dst.

(** [os.chmod(p, mode)]. *)
Definition chmod (p : path) (mode : N) : M FS unit :=
  fun fs =>
    match stat fs p with
    | None => (fs, Raise (OSError FileNotFoundError p))
    | Some n =>
        if permitted fs (SysChmod p)
        then (<[p := match n with
                     | File data _ => File data mode
                     | Dir _ => Dir mode
                     end]> fs, Ok tt)
        else (fs, Raise (OSError PermissionError p))
    end.

(** [shutil.copymode(src, dst)]: [chmod(dst, S_IMODE(stat(src).st_mode))]. *)
Definition copymode (src dst : path) : M FS unit :=
  fs <- get ;;
  match stat fs src with
  | None => raise (OSError FileNotFoundError src)
  | Some (File _ mode) | Some (Dir mode) => chmod dst mode
  end.

(** [shutil.copy(src, dst)]:
<<
    if os.path.isdir(dst):
        dst = os.path.join(dst, os.path.basename(src))
    copyfile(src, dst)
    copymode(src, dst)
    return dst
>> *)
Definition copy (src dst : path) : M FS path :=
  fs <- get ;;
  let dst := if isdir fs dst then dst </> basename src else dst in
  copyfile src dst ;;;
  copymode src dst ;;;
  ret dst.

End OS.



(** ** The interpreter state and the record of library calls *)

Inductive call : Type :=
| CallMakedirs (name : path) (exist_ok : bool)
| CallCheckCall (cmd : list string) (cwd : path)
| CallCopy (src dst : path)
| CallSuperRun.

(** A library call that has finished: what was called, and the exception it
    raised if it did not return. *)
Record event : Type := Event { ev_call : call; ev_raised : option exn }.

Definition raised {A} (r : result A) : option exn :=
  match r with Ok _ => None | Raise e => Some e end.

(** [sys.platform], the file system, and the calls made so far, oldest
    first. *)
Record World : Type := MkWorld {
  sys_platform : string;
  files : FS;
  calls : list event
}.

(** Run a library function on the world's file system and record it. *)
Definition logged {A} (c : call) (m : M FS A) : M World A :=
  fun w =>
    let (fs', r) := m (files w) in
    ({| sys_platform := sys_platform w;
        files := fs';
        calls := calls w ++ [Event c (raised r)] |}, r).

(** ** [setup.py]: module level *)

(** The names bound when the module is executed (lines 9 to 13). *)
Record globals : Type := Globals {
  ext : string;
  libopentrustregion_file : string;
  libtestsuite_file : string;
  package_dir : path;
  build_dir : path
}.

(** Executing the module body in world [w]; [file] is [__file__], the
    absolute path of [setup.py], so that [.absolute()] has nothing to add.
<<
    ext = "dylib" if sys.platform == "darwin" else "so"
    libopentrustregion_file = f"libopentrustregion.{ext}"
    libtestsuite_file = f"libtestsuite.{ext}"
    package_dir = pathlib.Path(__file__).parent.absolute()
    build_dir = package_dir / "build"
>> *)
Definition load_module (w : World) (file : path) : globals :=
  let ext := if String.eqb (sys_platform w) "darwin" then "dylib" else "so" in
  let libopentrustregion_file := "libopentrustregion." +:+ ext in
  let libtestsuite_file := "libtestsuite." +:+ ext in
  let package_dir := parent file in
  let build_dir := package_dir </> "build" in
  {| ext := ext;
     libopentrustregion_file := libopentrustregion_file;
     libtestsuite_file := libtestsuite_file;
     package_dir := package_dir;
     build_dir := build_dir |}.

(** The [package_data] argument of [setup(...)] (line 42). *)
Definition package_data (g : globals) : list (string * list string) :=
  [("pyopentrustregion", [libopentrustregion_file g; libtestsuite_file g])].

(** ** [setup.py]: [CMakeBuild.run] *)

Section CMakeBuild.

Variable permitted : FS -> syscall -> bool.
Variable umask : N.

(** [subprocess.Popen(cmd, cwd=cwd).wait()]: either the child cannot be
    started (an [OSError] for the given file name), or it runs to its end,
    leaves the file system in some state and exits with a status. What the
    child does is not the script's: a parameter. *)
Variable popen : list string -> path -> FS -> (os_error_kind * path) + (FS * Z).

(** [setuptools.command.build_py.build_py.run], the method overridden. *)
Variable build_py_run : M FS unit.

(** [subprocess.call(cmd, cwd=cwd)]. *)
Definition call_process (cmd : list string) (cwd : path) : M FS Z :=
  fun fs =>
    match popen cmd cwd fs with
    | inl (kind, filename) => (fs, Raise (OSError kind filename))
    | inr (fs', retcode) => (fs', Ok retcode)
    end.

(** [subprocess.check_call(cmd, cwd=cwd)]:
<<
    retcode = call(cmd, cwd=cwd)
    if retcode:
        raise CalledProcessError(retcode, cmd)
    return 0
>> *)
Definition check_call (cmd : list string) (cwd : path) : M FS Z :=
  retcode <- call_process cmd cwd ;;
  if (retcode =? 0)%Z then ret 0%Z
  else raise (CalledProcessError retcode cmd).

Definition os_makedirs (name : path) (exist_ok : bool) : M World unit :=
  logged (CallMakedirs name exist_ok)
         (makedirs permitted umask name 511%N exist_ok).

Definition subprocess_check_call (cmd : list string) (cwd : path)
  : M World Z :=
  logged (CallCheckCall cmd cwd) (check_call cmd cwd).

Definition shutil_copy (src dst : path) : M World path :=
  logged (CallCopy src dst) (copy permitted umask src dst).

Definition super_run : M World unit := logged CallSuperRun build_py_run.

(** The method, statement by statement (lines 17 to 36). *)
Definition run (g : globals) : M World unit :=
  os_makedirs (build_dir g) true ;;;
  subprocess_check_call ["cmake"; ".."] (build_dir g) ;;;
  subprocess_check_call ["cmake"; "--build"; "."] (build_dir g) ;;;
  shutil_copy
    (build_dir g </> libopentrustregion_file g)
    (package_dir g </> "pyopentrustregion" </> libopentrustregion_file g) ;;;
  shutil_copy
    (build_dir g </> libtestsuite_file g)
    (package_dir g </> "pyopentrustregion" </> libtestsuite_file g) ;;;
  super_run.

End CMakeBuild.


(** ** Vocabulary of the statements *)

(** [fs'] is [fs] with new directories at some paths satisfying [P], and
    nothing else changed. *)
Definition new_dirs_only (P : path -> Prop) (fs fs' : FS) : Prop :=
  forall q,
    stat fs' q = stat fs q \/
    (P q /\ stat fs q = None /\ isdir fs' q = true).


(** The file [shutil.copy(src, dst)] writes: inside [dst] when that is a
    directory, [dst] itself otherwise. *)
Definition copy_target (fs : FS) (src dst : path) : path :=
  if isdir fs dst then dst </> basename src else dst.

(** The destination package-data directory. *)
Definition dest_dir (g : globals) : path := package_dir g </> "pyopentrustregion".

(** The library calls of [run], in program order. *)
Definition steps (g : globals) : list call :=
  [ CallMakedirs (build_dir g) true;
    CallCheckCall ["cmake"; ".."] (build_dir g);
    CallCheckCall ["cmake"; "--build"; "."] (build_dir g);
    CallCopy (build_dir g </> libopentrustregion_file g)
             (dest_dir g </> libopentrustregion_file g);
    CallCopy (build_dir g </> libtestsuite_file g)
             (dest_dir g </> libtestsuite_file g);
    CallSuperRun ].

(** A call that returned normally. *)
Definition returned (c : call) : event := Event c None.

(** World [w] after further calls [evs] that left the file system [fs]. *)
Definition after (w : World) (fs : FS) (evs : list event) : World :=
  {| sys_platform := sys_platform w; files := fs; calls := calls w ++ evs |}.

Definition is_compile_call (c : call) : bool :=
  match c with
  | CallCheckCall cmd _ => bool_decide (cmd = ["cmake"; "--build"; "."])
  | _ => false
  end.

Definition is_copy_call (c : call) : bool :=
  match c with CallCopy _ _ => true | _ => false end.

(** How many of the recorded calls satisfy [P]. *)
Definition invocations (P : call -> bool) (evs : list event) : nat :=
  length (List.filter (fun ev => P (ev_call ev)) evs).

(** An external command started in [cwd] that leaves everything at or below
    [d] as it was. *)
Definition leaves_alone
    (popen : list string -> path -> FS -> (os_error_kind * path) + (FS * Z))
    (cwd d : path) : Prop :=
  forall cmd fs fs' status,
    popen cmd cwd fs = inr (fs', status) ->
    forall p, d `prefix_of` p -> stat fs' p = stat fs p.

(** ** A concrete checkout

    A source tree with [setup.py] and the [pyopentrustregion] package, no
    build directory yet, on Linux; and a few behaviours of the external
    tool. *)
Module Example.

Definition permit_all : FS -> syscall -> bool := fun _ _ => true.

Definition umask : N := 18%N.

Definition root : path := ["src"; "opentrustregion"].
Definition setup_py : path := root </> "setup.py".

Definition fs0 : FS :=
  {[ ["src"] := Dir 493%N;
     root := Dir 493%N;
     setup_py := File [] 420%N;
     root </> "pyopentrustregion" := Dir 493%N;
     root </> "pyopentrustregion" </> "__init__.py" := File [] 420%N ]}.

Definition linux : World := MkWorld "linux" fs0 [].

Definition g : globals := load_module linux setup_py.

Definition core_bytes : list Byte.byte := [Byte.x7f; Byte.x45; Byte.x4c; Byte.x46; Byte.x01].
Definition test_bytes : list Byte.byte := [Byte.x7f; Byte.x45; Byte.x4c; Byte.x46; Byte.x02].

(** The file system after a good configure, and after a good build. *)
Definition configured (fs : FS) (cwd : path) : FS :=
  <[cwd </> "Makefile" := File [Byte.x0a] 420%N]> fs.

Definition built (fs : FS) (cwd : path) : FS :=
  <[cwd </> "libtestsuite.so" := File test_bytes 493%N]>
    (<[cwd </> "libopentrustregion.so" := File core_bytes 493%N]> fs).

(** CMake doing its work. *)
Definition cmake (cmd : list string) (cwd : path) (fs : FS)
  : (os_error_kind * path) + (FS * Z) :=
  if bool_decide (cmd = ["cmake"; ".."]) then inr (configured fs cwd, 0%Z)
  else inr (built fs cwd, 0%Z).

(** CMake finding no compiler: the configure step exits with status 1. *)
Definition cmake_configure_fails (cmd : list string) (cwd : path) (fs : FS)
  : (os_error_kind * path) + (FS * Z) :=
  inr (fs, 1%Z).

(** A compile error: configure succeeds, the build exits with status 1
    after the first library has been linked. *)
Definition cmake_build_fails (cmd : list string) (cwd : path) (fs : FS)
  : (os_error_kind * path) + (FS * Z) :=
  if bool_decide (cmd = ["cmake"; ".."]) then inr (configured fs cwd, 0%Z)
  else inr (<[cwd </> "libopentrustregion.so" := File core_bytes 493%N]> fs,
            1%Z).

Definition build_py_ok : M FS unit := ret tt.

(** The states of a good run: build directory made, configured, built,
    and the core library staged. *)
Definition fs_build : FS := <[root </> "build" := Dir 493%N]> fs0.
Definition fs_configured : FS := configured fs_build (root </> "build").
Definition fs_built : FS := built fs_configured (root </> "build").

Definition core_src : path := root </> "build" </> "libopentrustregion.so".
Definition core_dst : path :=
  root </> "pyopentrustregion" </> "libopentrustregion.so".



(** The same checkout without the package directory. *)
Definition fs_no_package : FS :=
  {[ ["src"] := Dir 493%N;
     root := Dir 493%N;
     setup_py := File [] 420%N ]}.

End Example.

(** ** Further situations on the concrete checkout *)
Module Scenario.
Import Example.

(** No [cmake] on the [PATH]: the child cannot be started. *)
Definition no_cmake (cmd : list string) (cwd : path) (fs : FS)
  : (os_error_kind * path) + (FS * Z) :=
  inl (FileNotFoundError, ["cmake"]).

(** A checkout in which [build] is a regular file. *)
Definition fs_build_is_file : FS := <[root </> "build" := File [] 420%N]> fs0.

(** A build that reports success and produces no library. *)
Definition cmake_builds_nothing (cmd : list string) (cwd : path) (fs : FS)
  : (os_error_kind * path) + (FS * Z) :=
  if bool_decide (cmd = ["cmake"; ".."]) then inr (configured fs cwd, 0%Z)
  else inr (fs, 0%Z).

(** A build that reports success and produces the core library only. *)
Definition cmake_builds_core_only (cmd : list string) (cwd : path) (fs : FS)
  : (os_error_kind * path) + (FS * Z) :=
  if bool_decide (cmd = ["cmake"; ".."]) then inr (configured fs cwd, 0%Z)
  else inr (<[cwd </> "libopentrustregion.so" := File core_bytes 493%N]> fs,
            0%Z).

Definition fs_core_only : FS :=
  <[core_src := File core_bytes 493%N]> fs_configured.

(** A build that reports success and leaves a regular file where the build
    directory was. *)
Definition cmake_clobbers_build_dir (cmd : list string) (cwd : path) (fs : FS)
  : (os_error_kind * path) + (FS * Z) :=
  if bool_decide (cmd = ["cmake"; ".."]) then inr (fs, 0%Z)
  else inr (<[cwd := File [] 420%N]> fs, 0%Z).


(** After a good build, with a directory where the core library is to go. *)
Definition fs_dst_is_dir : FS := <[core_dst := Dir 493%N]> fs_built.

End Scenario.

(** * Properties *)

(** ** Paths and lookups *)

Lemma parent_joinpath (p : path) (name : string) : parent (p </> name) = p.
Proof. unfold parent, joinpath. apply removelast_last. Qed.

Lemma basename_joinpath (p : path) (name : string) : basename (p </> name) = name.
Proof. unfold basename, joinpath. apply last_last. Qed.

Lemma joinpath_nonempty (p : path) (name : string) : p </> name <> [].
Proof. unfold joinpath. destruct p; discriminate. Qed.


Lemma joinpath_not_self (p : path) (name : string) : p </> name <> p.
Proof.
  unfold joinpath. intros H. apply (f_equal (@length string)) in H.
  rewrite length_app in H. simpl in H. lia.
Qed.

Lemma stat_insert (fs : FS) (p q : path) (n : node) :
  p <> [] ->
  stat (<[p := n]> fs) q = if decide (p = q) then Some n else stat fs q.
Proof.
  intros Hp. destruct q as [|c q].
  - simpl. destruct (decide (p = [])); congruence.
  - simpl. apply lookup_insert.
Qed.

Lemma stat_insert_eq (fs : FS) (p : path) (n : node) :
  p <> [] -> stat (<[p := n]> fs) p = Some n.
Proof. intros Hp. rewrite stat_insert by done. by rewrite decide_True. Qed.

Lemma stat_insert_ne (fs : FS) (p q : path) (n : node) :
  p <> [] -> p <> q -> stat (<[p := n]> fs) q = stat fs q.
Proof. intros Hp Hq. rewrite stat_insert by done. by rewrite decide_False. Qed.

Lemma stat_None_nonempty (fs : FS) (p : path) : stat fs p = None -> p <> [].
Proof. intros H ->. discriminate. Qed.

Lemma wf_fs_parent (fs : FS) (p : path) (name : string) :
  wf_fs fs -> stat fs p = None -> stat fs (p </> name) = None.
Proof.
  intros Hwf Hp. destruct (stat fs (p </> name)) as [n|] eqn:E; [|done].
  assert (Hl : fs !! (p </> name) = Some n).
  { revert E. unfold stat, joinpath. by destruct p. }
  apply Hwf in Hl as [_ Hd]. rewrite parent_joinpath in Hd.
  unfold isdir in Hd. by rewrite Hp in Hd.
Qed.

Lemma wf_fs_isdir_parent (fs : FS) (p : path) (n : node) :
  wf_fs fs -> p <> [] -> stat fs p = Some n -> isdir fs (parent p) = true.
Proof.
  intros Hwf Hp E. destruct p as [|c p']; [done|].
  assert (E' : fs !! (c :: p') = Some n) by exact E.
  by apply Hwf in E' as [_ E'].
Qed.

(** ** Path resolution *)

Lemma walk_app (fs : FS) (a b : list string) :
  forall dir,
    walk fs dir (a ++ b)
    = match walk fs dir a with
      | Some kind => Some kind
      | None => walk fs (dir ++ a) b
      end.
Proof.
  induction a as [|c a IH]; intros dir; simpl.
  - by rewrite app_nil_r.
  - destruct (stat fs (dir </> c)) as [[]|]; try done.
    rewrite IH. unfold joinpath. by rewrite <- app_assoc.
Qed.

(** Resolution looks at the entries on the way only. *)
Lemma walk_frame (fs fs' : FS) (rest : list string) :
  forall dir,
    (forall q, q `prefix_of` dir ++ rest -> stat fs' q = stat fs q) ->
    walk fs' dir rest = walk fs dir rest.
Proof.
  induction rest as [|c rest IH]; intros dir H; simpl; [done|].
  rewrite H.
  2:{ unfold joinpath. exists rest. by rewrite <- app_assoc. }
  destruct (stat fs (dir </> c)) as [[]|]; try done.
  apply IH. intros q Hq. apply H. unfold joinpath in Hq.
  by rewrite <- app_assoc in Hq.
Qed.

(** In a well-formed file system every directory is reached, and below a
    regular file nothing is. *)
Lemma walk_wf_dir (fs : FS) (p : path) :
  wf_fs fs -> isdir fs p = true -> walk fs [] p = None.
Proof.
  intros Hwf. induction p as [|c p IH] using rev_ind; intros Hd; [done|].
  assert (Hpar : isdir fs p = true).
  { unfold isdir in Hd.
    destruct (stat fs (p ++ [c])) as [n|] eqn:E; [|done].
    rewrite <- (parent_joinpath p c).
    apply (wf_fs_isdir_parent fs _ n Hwf); [apply joinpath_nonempty|done]. }
  rewrite walk_app, (IH Hpar). simpl. unfold isdir, joinpath in *.
  by destruct (stat fs (p ++ [c])) as [[]|].
Qed.

Lemma walk_wf_file (fs : FS) (p : path) :
  wf_fs fs -> isfile fs p = true -> walk fs [] p = Some NotADirectoryError.
Proof.
  intros Hwf Hf. destruct p as [|c p] using rev_ind; [done|].
  assert (Hpar : isdir fs p = true).
  { unfold isfile in Hf.
    destruct (stat fs (p ++ [c])) as [n|] eqn:E; [|done].
    rewrite <- (parent_joinpath p c).
    apply (wf_fs_isdir_parent fs _ n Hwf); [apply joinpath_nonempty|done]. }
  rewrite walk_app, (walk_wf_dir fs p Hwf Hpar). simpl.
  unfold isfile, joinpath in *.
  by destruct (stat fs (p ++ [c])) as [[]|].
Qed.

Lemma walk_kinds (fs : FS) (rest : list string) :
  forall dir kind,
    walk fs dir rest = Some kind ->
    kind = FileNotFoundError \/ kind = NotADirectoryError.
Proof.
  induction rest as [|c rest IH]; intros dir kind H; simpl in H; [done|].
  destruct (stat fs (dir </> c)) as [[]|]; [|by eapply IH|];
    inversion H; auto.
Qed.

(** ** [os.makedirs] *)

Lemma new_dirs_only_refl (P : path -> Prop) (fs : FS) : new_dirs_only P fs fs.
Proof. intros q. by left. Qed.

Lemma new_dirs_only_weaken (P Q : path -> Prop) (fs fs' : FS) :
  (forall q, P q -> Q q) -> new_dirs_only P fs fs' -> new_dirs_only Q fs fs'.
Proof. intros HPQ H q. destruct (H q) as [E|(HP & E1 & E2)]; auto. Qed.

Lemma new_dirs_only_trans (P : path -> Prop) (fs1 fs2 fs3 : FS) :
  new_dirs_only P fs1 fs2 -> new_dirs_only P fs2 fs3 -> new_dirs_only P fs1 fs3.
Proof.
  intros H12 H23 q.
  destruct (H23 q) as [E|(HP & E1 & E2)], (H12 q) as [E'|(HP' & E1' & E2')].
  - left. congruence.
  - right. repeat split; auto. unfold isdir in *. by rewrite E.
  - right. repeat split; auto. congruence.
  - unfold isdir in E2'. by rewrite E1 in E2'.
Qed.

Lemma new_dirs_only_frame (P : path -> Prop) (fs fs' : FS) (q : path) :
  new_dirs_only P fs fs' -> ~ P q -> stat fs' q = stat fs q.
Proof. intros H Hq. destruct (H q) as [E|(HP & _)]; [done|contradiction]. Qed.

Lemma new_dirs_only_mono (P : path -> Prop) (fs fs' : FS) (q : path) (n : node) :
  new_dirs_only P fs fs' -> stat fs q = Some n -> stat fs' q = Some n.
Proof. intros H Hq. destruct (H q) as [E|(_ & E & _)]; congruence. Qed.

Section OSFacts.

Variable permitted : FS -> syscall -> bool.
Variable umask : N.

Lemma mkdir_inv (p : path) (mode : N) (fs fs' : FS) (r : result unit) :
  mkdir permitted umask p mode fs = (fs', r) ->
  (r = Ok tt /\ stat fs p = None /\ isdir fs (parent p) = true /\
   fs' = <[p := Dir (created_mode umask mode)]> fs)
  \/ (fs' = fs /\ exists k, r = Raise (OSError k p) /\
      (k = FileExistsError <-> path_exists fs p = true)).
Proof.
  unfold mkdir, path_exists, isdir. intros H.
  destruct (stat fs p) as [n|] eqn:Ep.
  { right. inversion H; subst. split; [done|]. eexists; split; [done|]. done. }
  destruct (stat fs (parent p)) as [[d m|m]|] eqn:Epp.
  - right. inversion H; subst. split; [done|]. eexists; split; [done|].
    split; discriminate.
  - destruct (permitted fs (SysMkdir p)); inversion H; subst.
    + left. done.
    + right. split; [done|]. eexists; split; [done|]. split; discriminate.
  - right. inversion H; subst. split; [done|]. eexists; split; [done|].
    split; discriminate.
Qed.

Lemma mkdir_leaf_inv (name : path) (mode : N) (exist_ok : bool)
      (fs fs' : FS) (r : result unit) :
  mkdir_leaf permitted umask name mode exist_ok fs = (fs', r) ->
  (r = Ok tt /\ stat fs name = None /\ isdir fs (parent name) = true /\
   fs' = <[name := Dir (created_mode umask mode)]> fs)
  \/ (fs' = fs /\ r = Ok tt /\ exist_ok = true /\ isdir fs name = true)
  \/ (fs' = fs /\ exists k, r = Raise (OSError k name) /\
      (k = FileExistsError <-> path_exists fs name = true) /\
      (exist_ok = true -> isdir fs name = false)).
Proof.
  unfold mkdir_leaf, try_except. intros H.
  destruct (mkdir permitted umask name mode fs) as [fs1 r1] eqn:Em.
  apply mkdir_inv in Em as [(-> & E1 & E2 & ->)|(-> & k & -> & Hk)].
  - left. inversion H; subst. done.
  - right. simpl in H. unfold bind, get, raise, ret in H.
    destruct exist_ok; simpl in H.
    + destruct (isdir fs name) eqn:Ed; simpl in H; inversion H; subst.
      * left. done.
      * right. split; [done|]. exists k. done.
    + inversion H; subst. right. split; [done|]. exists k.
      split; [done|]. split; [done|]. discriminate.
Qed.

Lemma makedirs_rev_nil (mode : N) (exist_ok : bool) :
  makedirs_rev permitted umask [] mode exist_ok
  = (ret tt ;;; mkdir_leaf permitted umask [] mode exist_ok).
Proof. reflexivity. Qed.

Lemma makedirs_rev_cons (tail : string) (rhead : list string) (mode : N)
      (exist_ok : bool) :
  makedirs_rev permitted umask (tail :: rhead) mode exist_ok
  = ((fs <- get ;;
      if negb (path_exists fs (rev rhead))
      then try_except (makedirs_rev permitted umask rhead 511%N exist_ok)
             (fun e => match e with
                       | OSError FileExistsError _ => ret tt
                       | _ => raise e
                       end)
      else ret tt) ;;;
     mkdir_leaf permitted umask (rev (tail :: rhead)) mode exist_ok).
Proof. reflexivity. Qed.

Lemma mkdir_leaf_new_dirs (name : path) (mode : N) (exist_ok : bool)
      (fs fs' : FS) (r : result unit) :
  mkdir_leaf permitted umask name mode exist_ok fs = (fs', r) ->
  new_dirs_only (eq name) fs fs'.
Proof.
  intros H. apply mkdir_leaf_inv in H
    as [(_ & E1 & _ & ->)|[(-> & _)|(-> & _)]];
    try apply new_dirs_only_refl.
  intros q. pose proof (stat_None_nonempty _ _ E1) as Hne.
  rewrite stat_insert by done. unfold isdir. rewrite stat_insert by done.
  destruct (decide (name = q)) as [<-|Hq]; [right|left]; done.
Qed.

(** [makedirs] only adds directories, and only on the way to [name]. *)
Lemma makedirs_rev_new_dirs (rname : list string) :
  forall (mode : N) (exist_ok : bool) (fs fs' : FS) (r : result unit),
    makedirs_rev permitted umask rname mode exist_ok fs = (fs', r) ->
    new_dirs_only (fun q => q `prefix_of` rev rname) fs fs'.
Proof.
  induction rname as [|tail rhead IH]; intros mode exist_ok fs fs' r H.
  - rewrite makedirs_rev_nil in H. unfold bind, ret in H.
    apply mkdir_leaf_new_dirs in H.
    eapply new_dirs_only_weaken; [|exact H]. by intros q <-.
  - rewrite makedirs_rev_cons in H. unfold bind at 1 in H.
    match type of H with
    | match ?m fs with _ => _ end = _ => destruct (m fs) as [fs1 r1] eqn:E1
    end.
    assert (H1 : new_dirs_only (fun q => q `prefix_of` rev (tail :: rhead)) fs fs1).
    { unfold bind, get in E1.
      destruct (negb (path_exists fs (rev rhead))).
      - unfold try_except in E1.
        destruct (makedirs_rev permitted umask rhead 511 exist_ok fs)
          as [fs2 r2] eqn:E2.
        apply IH in E2.
        assert (fs1 = fs2) as ->.
        { destruct r2 as [[]|e]; [by inversion E1|].
          destruct e as [[] ?| | |]; by inversion E1. }
        eapply new_dirs_only_weaken; [|exact E2].
        intros q Hq. simpl. etrans; [exact Hq|]. by apply prefix_app_r.
      - inversion E1; subst. apply new_dirs_only_refl. }
    destruct r1 as [[]|e].
    + apply mkdir_leaf_new_dirs in H.
      eapply new_dirs_only_trans; [exact H1|].
      eapply new_dirs_only_weaken; [|exact H]. by intros q <-.
    + by inversion H; subst.
Qed.

(** After a successful [makedirs] the directory and its parent are there. *)
Lemma makedirs_rev_ok (rname : list string) :
  forall (mode : N) (exist_ok : bool) (fs fs' : FS),
    makedirs_rev permitted umask rname mode exist_ok fs = (fs', Ok tt) ->
    isdir fs' (rev rname) = true /\ path_exists fs' (parent (rev rname)) = true.
Proof.
  induction rname as [|tail rhead IH]; intros mode exist_ok fs fs' H.
  - done.
  - rewrite makedirs_rev_cons in H. unfold bind at 1 in H.
    match type of H with
    | match ?m fs with _ => _ end = _ => destruct (m fs) as [fs1 r1] eqn:E1
    end.
    destruct r1 as [[]|e]; [|by inversion H].
    replace (parent (rev (tail :: rhead))) with (rev rhead)
      by (simpl; symmetry; apply parent_joinpath).
    assert (Hhead : isdir fs1 (parent (rev (tail :: rhead))) = true ->
                    path_exists fs1 (rev rhead) = true).
    { replace (parent (rev (tail :: rhead))) with (rev rhead)
        by (simpl; symmetry; apply parent_joinpath).
      unfold isdir, path_exists. by destruct (stat fs1 (rev rhead)) as [[]|]. }
    assert (Hne : rev (tail :: rhead) <> []).
    { simpl. apply joinpath_nonempty. }
    apply mkdir_leaf_inv in H
      as [(_ & En & Ep & ->)|[(-> & _ & _ & Ed)|(_ & k & ? & _)]];
      [| |done].
    + split.
      * unfold isdir. by rewrite stat_insert_eq.
      * apply Hhead in Ep. unfold path_exists in *.
        rewrite stat_insert_ne; [done|done|].
        simpl. apply joinpath_not_self.
    + split; [done|].
      (* the directory was there already: its parent existed at the start,
         or the recursive call has just made it *)
      unfold bind, get in E1.
      destruct (path_exists fs (rev rhead)) eqn:Eh; simpl in E1.
      { by inversion E1; subst. }
      unfold try_except in E1.
      destruct (makedirs_rev permitted umask rhead 511 exist_ok fs)
        as [fs2 r2] eqn:E2.
      destruct r2 as [[]|e].
      { inversion E1; subst. apply IH in E2 as [E2 _].
        unfold isdir, path_exists in *.
        by destruct (stat fs1 (rev rhead)) as [[]|]. }
      destruct e as [[] ?| | |]; inversion E1; subst.
      (* a FileExistsError let through: then the directory's own entry has
         no parent, and [makedirs] of the parent cannot have raised it *)
      exfalso. clear E1.
      destruct rhead as [|t2 rh2].
      { simpl in Eh. discriminate. }
      rewrite makedirs_rev_cons in E2. unfold bind at 1 in E2.
      match type of E2 with
      | match ?m fs with _ => _ end = _ => destruct (m fs) as [fs3 r3] eqn:E3
      end.
      assert (H3 : new_dirs_only (fun q => q `prefix_of` rev rh2) fs fs3 /\
                   forall f, r3 <> Raise (OSError FileExistsError f)).
      { unfold bind, get in E3.
        destruct (negb (path_exists fs (rev rh2))).
        - unfold try_except in E3.
          destruct (makedirs_rev permitted umask rh2 511 exist_ok fs)
            as [fs4 r4] eqn:E4.
          apply makedirs_rev_new_dirs in E4.
          destruct r4 as [[]|e]; [by inversion E3; subst|].
          destruct e as [[] ?| | |]; by inversion E3; subst.
        - by inversion E3; subst; split; [apply new_dirs_only_refl|]. }
      destruct H3 as [H3 Hr3].
      destruct r3 as [[]|e]; [|inversion E2; subst; by destruct (Hr3 filename)].
      apply mkdir_leaf_inv in E2
        as [(? & _)|[(_ & ? & _)|(-> & k & Ek & Hk & _)]]; try done.
      inversion Ek; subst k.
      assert (Hx : path_exists fs3 (rev (t2 :: rh2)) = true) by by apply Hk.
      unfold path_exists in Hx, Eh.
      rewrite (new_dirs_only_frame _ _ _ _ H3) in Hx.
      { by destruct (stat fs (rev (t2 :: rh2))). }
      simpl. intros Hp. apply prefix_length in Hp.
      rewrite length_app in Hp. simpl in Hp. lia.
Qed.





(** ** [shutil.copy] *)

Lemma read_file_inv (src : path) (fs fs' : FS) (r : result (list Byte.byte)) :
  read_file permitted src fs = (fs', r) ->
  fs' = fs /\
  ((exists data mode, r = Ok data /\ stat fs src = Some (File data mode))
   \/ (exists k, r = Raise (OSError k src))).
Proof.
  unfold read_file. intros H.
  destruct (walk fs [] (parent src)) as [kind|].
  { inversion H; subst. split; [done|]. right; eauto. }
  destruct (stat fs src) as [[data mode|mode]|] eqn:E.
  - destruct (permitted fs (SysOpenRead src)); inversion H; subst;
      (split; [done|]); [left|right]; eauto.
  - inversion H; subst. split; [done|]. right; eauto.
  - inversion H; subst. split; [done|]. right; eauto.
Qed.

(** A file is read only through directories. *)
Lemma read_file_ok_walk (src : path) (fs fs' : FS) (data : list Byte.byte) :
  read_file permitted src fs = (fs', Ok data) ->
  walk fs [] (parent src) = None.
Proof.
  unfold read_file. intros H.
  by destruct (walk fs [] (parent src)) as [kind|].
Qed.

Lemma write_file_inv (dst : path) (data : list Byte.byte) (fs fs' : FS)
      (r : result unit) :
  write_file permitted umask dst data fs = (fs', r) ->
  (r = Ok tt /\ dst <> [] /\ exists mode, fs' = <[dst := File data mode]> fs)
  \/ (fs' = fs /\ exists k, r = Raise (OSError k dst)).
Proof.
  unfold write_file. intros H.
  destruct (stat fs dst) as [[old mode|mode]|] eqn:E.
  - assert (dst <> []) by (intros ->; discriminate).
    destruct (permitted fs (SysOpenWrite dst)); inversion H; subst;
      [left|right]; eauto.
  - inversion H; subst. right; eauto.
  - pose proof (stat_None_nonempty _ _ E).
    destruct (stat fs (parent dst)) as [[old mode|mode]|].
    + inversion H; subst. right; eauto.
    + destruct (permitted fs (SysOpenWrite dst)); inversion H; subst;
        [left|right]; eauto.
    + inversion H; subst. right; eauto.
Qed.

Lemma chmod_inv (p : path) (mode : N) (fs fs' : FS) (r : result unit) :
  chmod permitted p mode fs = (fs', r) ->
  (r = Ok tt /\ exists n, stat fs p = Some n /\
     fs' = <[p := match n with
                  | File data _ => File data mode
                  | Dir _ => Dir mode
                  end]> fs)
  \/ (fs' = fs /\ exists k, r = Raise (OSError k p)).
Proof.
  unfold chmod. intros H. destruct (stat fs p) as [n|] eqn:E.
  - destruct (permitted fs (SysChmod p)); inversion H; subst;
      [left|right]; eauto.
  - inversion H; subst. right; eauto.
Qed.

(** What [copyfile] followed by [copymode] does on a given target. *)
Lemma copy_to_inv (src d : path) (fs fs' : FS) (r : result path) :
  (copyfile permitted umask src d ;;; copymode permitted src d ;;; ret d) fs
  = (fs', r) ->
  (forall q, q <> d -> stat fs' q = stat fs q) /\
  match r with
  | Ok d' =>
      d' = d /\ src <> d /\
      exists data mode,
        stat fs src = Some (File data mode) /\
        stat fs' d = Some (File data mode)
  | Raise e => is_OSError e = true
  end.
Proof.
  unfold copyfile, copymode. unfold bind at 1 2. unfold get at 1.
  destruct (samefile fs src d) eqn:Es.
  { unfold raise. intros H; inversion H; subst. done. }
  unfold bind at 1.
  destruct (read_file permitted src fs) as [fs1 r1] eqn:E1.
  apply read_file_inv in E1 as [-> [(data & mode & -> & Esrc)|(k & ->)]];
    [|intros H; inversion H; subst; done].
  assert (Hsd : src <> d).
  { intros <-. unfold samefile, path_exists in Es. rewrite Esrc in Es.
    simpl in Es. by rewrite bool_decide_eq_true_2 in Es. }
  unfold bind at 1.
  destruct (write_file permitted umask d data fs) as [fs2 r2] eqn:E2.
  apply write_file_inv in E2 as [(-> & Hd & m & ->)|(-> & k & ->)];
    [|intros H; inversion H; subst; done].
  unfold ret at 1. unfold bind at 1 2. unfold get.
  rewrite stat_insert_ne by done. rewrite Esrc.
  destruct (chmod permitted d mode (<[d:=File data m]> fs)) as [fs3 r3] eqn:E3.
  apply chmod_inv in E3 as [(-> & n & En & ->)|(-> & k & ->)].
  - rewrite stat_insert_eq in En by done. inversion En; subst n.
    unfold ret. intros H; inversion H; subst. split.
    + intros q Hq. by rewrite !stat_insert_ne.
    + split; [done|]. split; [done|]. exists data, mode.
      split; [done|]. by rewrite stat_insert_eq.
  - intros H; inversion H; subst. split; [|done].
    intros q Hq. by rewrite stat_insert_ne.
Qed.

Lemma copy_inv (src dst : path) (fs fs' : FS) (r : result path) :
  copy permitted umask src dst fs = (fs', r) ->
  let d := copy_target fs src dst in
  (forall q, q <> d -> stat fs' q = stat fs q) /\
  match r with
  | Ok d' =>
      d' = d /\ src <> d /\
      exists data mode,
        stat fs src = Some (File data mode) /\
        stat fs' d = Some (File data mode)
  | Raise e => is_OSError e = true
  end.
Proof.
  unfold copy. unfold bind at 1. unfold get. fold (copy_target fs src dst).
  apply copy_to_inv.
Qed.

(** Copying to a path that is absent and has no parent directory fails. *)
Lemma copy_no_parent (src dst : path) (fs fs' : FS) (r : result path) :
  stat fs dst = None ->
  stat fs (parent dst) = None ->
  copy permitted umask src dst fs = (fs', r) ->
  fs' = fs /\ exists e, r = Raise e /\ is_OSError e = true.
Proof.
  intros Hd Hp. unfold copy, bind at 1, get, isdir. rewrite Hd.
  unfold copyfile, bind at 1 2, get, samefile, path_exists. rewrite Hd.
  rewrite andb_false_r. simpl. unfold bind at 1.
  destruct (read_file permitted src fs) as [fs1 r1] eqn:E1.
  apply read_file_inv in E1 as [-> [(data & mode & -> & Esrc)|(k & ->)]].
  - unfold bind at 1, write_file. rewrite Hd, Hp.
    intros H; inversion H; subst. eauto.
  - intros H; inversion H; subst. eauto.
Qed.


(** A copy that returns has resolved the directory of its source. *)
Lemma copy_ok_walk (src dst : path) (fs fs' : FS) (d : path) :
  copy permitted umask src dst fs = (fs', Ok d) ->
  walk fs [] (parent src) = None.
Proof.
  unfold copy. unfold bind at 1. unfold get.
  generalize (if isdir fs dst then dst </> basename src else dst). intros t.
  unfold copyfile. unfold bind at 1 2. unfold get at 1.
  destruct (samefile fs src t); [intros H; inversion H|].
  unfold bind at 1.
  destruct (read_file permitted src fs) as [fs1 [data|e]] eqn:E1;
    [|intros H; inversion H].
  intros _. by apply read_file_ok_walk in E1.
Qed.

End OSFacts.

(** ** Running recorded calls *)

Lemma after_after (w : World) (fs1 fs2 : FS) (evs1 evs2 : list event) :
  after (after w fs1 evs1) fs2 evs2 = after w fs2 (evs1 ++ evs2).
Proof. unfold after. simpl. by rewrite app_assoc. Qed.

Lemma logged_eq {A : Type} (c : call) (m : M FS A) (w : World) (fs' : FS)
      (r : result A) :
  m (files w) = (fs', r) ->
  logged c m w = (after w fs' [Event c (raised r)], r).
Proof. intros H. unfold logged. by rewrite H. Qed.

Lemma logged_ok {A B : Type} (c : call) (m : M FS A) (k : A -> M World B)
      (w : World) (fs' : FS) (a : A) :
  m (files w) = (fs', Ok a) ->
  bind (logged c m) k w = k a (after w fs' [returned c]).
Proof. intros H. unfold bind. by rewrite (logged_eq _ _ _ _ _ H). Qed.

Lemma logged_raise {A B : Type} (c : call) (m : M FS A) (k : A -> M World B)
      (w : World) (fs' : FS) (e : exn) :
  m (files w) = (fs', Raise e) ->
  bind (logged c m) k w = (after w fs' [Event c (Some e)], Raise e).
Proof. intros H. unfold bind. by rewrite (logged_eq _ _ _ _ _ H). Qed.

Section RunFacts.

Variable permitted : FS -> syscall -> bool.
Variable umask : N.
Variable popen : list string -> path -> FS -> (os_error_kind * path) + (FS * Z).
Variable build_py_run : M FS unit.

Lemma check_call_exit_zero (cmd : list string) (cwd : path) (fs fs' : FS) :
  popen cmd cwd fs = inr (fs', 0%Z) ->
  check_call popen cmd cwd fs = (fs', Ok 0%Z).
Proof. intros H. unfold check_call, bind, call_process. by rewrite H. Qed.

Lemma check_call_exit_nonzero (cmd : list string) (cwd : path) (fs fs' : FS)
      (status : Z) :
  popen cmd cwd fs = inr (fs', status) ->
  status <> 0%Z ->
  check_call popen cmd cwd fs = (fs', Raise (CalledProcessError status cmd)).
Proof.
  intros H Hs. unfold check_call, bind, call_process. rewrite H.
  destruct (Z.eqb_spec status 0); [done|]. done.
Qed.

(** The shape of every run: the first [k] calls of the method returned, in
    program order, and the call after them decided the outcome. *)
Lemma run_shape (g : globals) (w : World) :
  exists (k : nat) (c : call) (fs' : FS),
    steps g !! k = Some c /\
    run permitted umask popen build_py_run g w
    = (after w fs' ((returned <$> take k (steps g))
                    ++ [Event c (raised (run permitted umask popen build_py_run g w).2)]),
       (run permitted umask popen build_py_run g w).2) /\
    (k < 5 -> exists e, (run permitted umask popen build_py_run g w).2 = Raise e).
Proof.
  unfold run, os_makedirs, subprocess_check_call, shutil_copy, super_run.
  fold (dest_dir g).
  destruct (makedirs permitted umask (build_dir g) 511 true (files w))
    as [fs1 [[]|e1]] eqn:E1.
  2:{ rewrite (logged_raise _ _ _ _ _ _ E1). exists 0; eexists; exists fs1.
      split; [reflexivity|]. split; [reflexivity|]. eauto. }
  rewrite (logged_ok _ _ _ _ _ _ E1).
  destruct (check_call popen ["cmake"; ".."] (build_dir g) fs1)
    as [fs2 [z2|e2]] eqn:E2.
  2:{ rewrite (logged_raise _ _ _ _ fs2 e2) by exact E2. rewrite after_after.
      exists 1; eexists; exists fs2. split; [reflexivity|]. split; [reflexivity|]. eauto. }
  rewrite (logged_ok _ _ _ _ fs2 z2) by exact E2. rewrite after_after.
  destruct (check_call popen ["cmake"; "--build"; "."] (build_dir g) fs2)
    as [fs3 [z3|e3]] eqn:E3.
  2:{ rewrite (logged_raise _ _ _ _ fs3 e3) by exact E3. rewrite after_after.
      exists 2; eexists; exists fs3. split; [reflexivity|]. split; [reflexivity|]. eauto. }
  rewrite (logged_ok _ _ _ _ fs3 z3) by exact E3. rewrite after_after.
  destruct (copy permitted umask (build_dir g </> libopentrustregion_file g)
              (dest_dir g </> libopentrustregion_file g) fs3)
    as [fs4 [d4|e4]] eqn:E4.
  2:{ rewrite (logged_raise _ _ _ _ fs4 e4) by exact E4. rewrite after_after.
      exists 3; eexists; exists fs4. split; [reflexivity|]. split; [reflexivity|]. eauto. }
  rewrite (logged_ok _ _ _ _ fs4 d4) by exact E4. rewrite after_after.
  destruct (copy permitted umask (build_dir g </> libtestsuite_file g)
              (dest_dir g </> libtestsuite_file g) fs4)
    as [fs5 [d5|e5]] eqn:E5.
  2:{ rewrite (logged_raise _ _ _ _ fs5 e5) by exact E5. rewrite after_after.
      exists 4; eexists; exists fs5. split; [reflexivity|]. split; [reflexivity|]. eauto. }
  rewrite (logged_ok _ _ _ _ fs5 d5) by exact E5. rewrite after_after.
  destruct (build_py_run fs5) as [fs6 r6] eqn:E6.
  rewrite (logged_eq _ _ _ fs6 r6) by exact E6. rewrite after_after.
  exists 5; eexists; exists fs6. split; [reflexivity|]. split; [reflexivity|]. lia.
Qed.

End RunFacts.

(** * The claims *)

(** ** Platform resolver *)

(** C4. The suffix bound at module level is a total function of
    [sys.platform] alone: it is ["dylib"] exactly when the platform is
    ["darwin"] and ["so"] for every other identifier, known or not. Loading
    the module is a function into [globals]: it cannot fail and it leaves the
    world as it is. *)
Theorem platform_resolver (w : World) (file : path) :
  (ext (load_module w file) = "dylib" <-> sys_platform w = "darwin") /\
  (ext (load_module w file) = "so" <-> sys_platform w <> "darwin").
Proof.
  unfold load_module. simpl.
  destruct (String.eqb_spec (sys_platform w) "darwin") as [E|E].
  - split; split; intros H; try done.
  - split; split; intros H; try done.
Qed.

(** ** The order of the steps *)

Section Order.

Variable permitted : FS -> syscall -> bool.
Variable umask : N.
Variable popen : list string -> path -> FS -> (os_error_kind * path) + (FS * Z).
Variable build_py_run : M FS unit.

Local Abbreviation run' := (run permitted umask popen build_py_run).


(** ** Failure of the external build *)

(** C2. A run in which the build directory is in place and the configure
    command exits with a status other than 0: the run ends there with
    [CalledProcessError] carrying that status and that command, raised by
    [check_call] and handed to the caller as it is. The calls made are
    [os.makedirs] and the configure call, nothing else: the compile command
    is invoked zero times and no copy is made. *)
Theorem configure_failure_aborts (g : globals) (w : World) (fs1 fs2 : FS)
        (status : Z) :
  makedirs permitted umask (build_dir g) 511%N true (files w) = (fs1, Ok tt) ->
  popen ["cmake"; ".."] (build_dir g) fs1 = inr (fs2, status) ->
  status <> 0%Z ->
  let failure := CalledProcessError status ["cmake"; ".."] in
  let evs := [ returned (CallMakedirs (build_dir g) true);
               Event (CallCheckCall ["cmake"; ".."] (build_dir g))
                     (Some failure) ] in
  run' g w = (after w fs2 evs, Raise failure) /\
  invocations is_compile_call evs = 0 /\
  invocations is_copy_call evs = 0.
Proof.
  intros Hmk Hconf Hst failure evs. split; [|done].
  unfold run, os_makedirs, subprocess_check_call.
  rewrite (logged_ok _ _ _ _ _ _ Hmk).
  pose proof (check_call_exit_nonzero popen _ _ _ _ _ Hconf Hst) as Hc.
  rewrite (logged_raise _ _ _ _ fs2 failure) by exact Hc.
  by rewrite after_after.
Qed.

(** Neither [os.makedirs] on the build directory nor anything else before
    the copies touches the package directory of a loaded module. *)
Lemma dest_not_towards_build (w0 : World) (file : path) (p : path) :
  dest_dir (load_module w0 file) `prefix_of` p ->
  ~ p `prefix_of` build_dir (load_module w0 file).
Proof.
  unfold dest_dir. simpl. unfold joinpath. intros H1 H2.
  assert (H : (parent file ++ ["pyopentrustregion"])
                `prefix_of` (parent file ++ ["build"])) by (by etrans).
  apply prefix_app_inv in H. destruct H as [k Hk]. simpl in Hk.
  inversion Hk.
Qed.

(** C3. A run in which the configure command exits with 0 and the compile
    command with a status other than 0: the run ends there with
    [CalledProcessError] for the compile command, after three calls, none of
    them a copy. The script has written nothing at or below the package
    directory: [os.makedirs] left it as it was, and the file system at the
    end is the one the compile command left. So when the external tool,
    started in the build directory, leaves the package directory alone,
    every path at or below the package directory is as it was before the
    run; no library appears there that was not there before. *)
Theorem compile_failure_aborts (w0 : World) (file : path) (w : World)
        (fs1 fs2 fs3 : FS) (status : Z) :
  let g := load_module w0 file in
  makedirs permitted umask (build_dir g) 511%N true (files w) = (fs1, Ok tt) ->
  popen ["cmake"; ".."] (build_dir g) fs1 = inr (fs2, 0%Z) ->
  popen ["cmake"; "--build"; "."] (build_dir g) fs2 = inr (fs3, status) ->
  status <> 0%Z ->
  let failure := CalledProcessError status ["cmake"; "--build"; "."] in
  let evs := [ returned (CallMakedirs (build_dir g) true);
               returned (CallCheckCall ["cmake"; ".."] (build_dir g));
               Event (CallCheckCall ["cmake"; "--build"; "."] (build_dir g))
                     (Some failure) ] in
  run' g w = (after w fs3 evs, Raise failure) /\
  invocations is_copy_call evs = 0 /\
  (forall p, dest_dir g `prefix_of` p -> stat fs1 p = stat (files w) p) /\
  (leaves_alone popen (build_dir g) (dest_dir g) ->
   forall p, dest_dir g `prefix_of` p ->
             stat (files (run' g w).1) p = stat (files w) p).
Proof.
  intros g Hmk Hconf Hbuild Hst failure evs.
  assert (Hrun : run' g w = (after w fs3 evs, Raise failure)).
  { unfold run, os_makedirs, subprocess_check_call.
    rewrite (logged_ok _ _ _ _ _ _ Hmk).
    pose proof (check_call_exit_zero popen _ _ _ _ Hconf) as Hc.
    rewrite (logged_ok _ _ _ _ fs2 0%Z) by exact Hc.
    rewrite after_after.
    pose proof (check_call_exit_nonzero popen _ _ _ _ _ Hbuild Hst) as Hb.
    rewrite (logged_raise _ _ _ _ fs3 failure) by exact Hb.
    by rewrite after_after. }
  assert (Hframe : forall p, dest_dir g `prefix_of` p ->
                             stat fs1 p = stat (files w) p).
  { intros p Hp. apply makedirs_rev_new_dirs in Hmk.
    apply (new_dirs_only_frame _ _ _ _ Hmk).
    rewrite rev_involutive. by apply dest_not_towards_build. }
  split; [exact Hrun|]. split; [done|]. split; [exact Hframe|].
  intros Halone p Hp. rewrite Hrun. simpl.
  rewrite (Halone _ _ _ _ Hbuild p Hp), (Halone _ _ _ _ Hconf p Hp).
  by apply Hframe.
Qed.

(** ** The package directory is not created *)

(** C9. [run] creates directories only on the way to the build directory:
    what [os.makedirs] adds are directories at prefixes of [build_dir], so
    the package directory is after it what it was before. When, after a
    configure and a compile that both exit with 0, the package directory is
    absent, the first copy raises an [OSError], which is the outcome of the
    run; four calls have been made, the inherited method is not among them,
    and the package directory is still absent. *)
Theorem missing_package_dir_fails (w0 : World) (file : path) (w : World)
        (fs1 fs2 fs3 : FS) :
  let g := load_module w0 file in
  makedirs permitted umask (build_dir g) 511%N true (files w) = (fs1, Ok tt) ->
  popen ["cmake"; ".."] (build_dir g) fs1 = inr (fs2, 0%Z) ->
  popen ["cmake"; "--build"; "."] (build_dir g) fs2 = inr (fs3, 0%Z) ->
  wf_fs fs3 ->
  stat fs3 (dest_dir g) = None ->
  new_dirs_only (fun q => q `prefix_of` build_dir g) (files w) fs1 /\
  stat fs1 (dest_dir g) = stat (files w) (dest_dir g) /\
  exists e,
    is_OSError e = true /\
    run' g w
    = (after w fs3
         [ returned (CallMakedirs (build_dir g) true);
           returned (CallCheckCall ["cmake"; ".."] (build_dir g));
           returned (CallCheckCall ["cmake"; "--build"; "."] (build_dir g));
           Event (CallCopy (build_dir g </> libopentrustregion_file g)
                           (dest_dir g </> libopentrustregion_file g))
                 (Some e) ],
       Raise e) /\
    stat (files (run' g w).1) (dest_dir g) = None.
Proof.
  intros g Hmk Hconf Hbuild Hwf Habsent.
  pose proof (makedirs_rev_new_dirs _ _ _ _ _ _ _ _ Hmk) as Hnew.
  rewrite rev_involutive in Hnew.
  split; [exact Hnew|]. split.
  { apply (new_dirs_only_frame _ _ _ _ Hnew).
    by apply dest_not_towards_build. }
  destruct (copy permitted umask (build_dir g </> libopentrustregion_file g)
              (dest_dir g </> libopentrustregion_file g) fs3)
    as [fs4 r4] eqn:Ecopy.
  pose proof Ecopy as Hc.
  apply copy_no_parent in Hc as [-> (e & -> & He)].
  2:{ by apply wf_fs_parent. }
  2:{ by rewrite parent_joinpath. }
  exists e. split; [exact He|].
  assert (Hrun : run' g w = (after w fs3
         [ returned (CallMakedirs (build_dir g) true);
           returned (CallCheckCall ["cmake"; ".."] (build_dir g));
           returned (CallCheckCall ["cmake"; "--build"; "."] (build_dir g));
           Event (CallCopy (build_dir g </> libopentrustregion_file g)
                           (dest_dir g </> libopentrustregion_file g))
                 (Some e) ], Raise e)).
  { unfold run, os_makedirs, subprocess_check_call, shutil_copy.
    rewrite (logged_ok _ _ _ _ _ _ Hmk).
    pose proof (check_call_exit_zero popen _ _ _ _ Hconf) as Hc.
    rewrite (logged_ok _ _ _ _ fs2 0%Z) by exact Hc.
    rewrite after_after.
    pose proof (check_call_exit_zero popen _ _ _ _ Hbuild) as Hb.
    rewrite (logged_ok _ _ _ _ fs3 0%Z) by exact Hb.
    rewrite after_after.
    rewrite (logged_raise _ _ _ _ fs3 e) by exact Ecopy.
    by rewrite after_after. }
  split; [exact Hrun|]. by rewrite Hrun.
Qed.

(** ** The two copies *)



(** ** One suffix, bound once *)

(** C10. The suffix is bound when the module is loaded, from [sys.platform]
    as it is then, and both file names are built from that one binding.
    [run] takes the names from the module's globals: in whatever world it
    runs, also one whose [sys.platform] has changed since, every copy it
    calls has as source [build_dir / name] and as destination
    [package_dir / "pyopentrustregion" / name] for the same [name], one of
    the two file names, each of the form [lib<component>.<ext>] with the
    suffix bound at load time. *)
Theorem suffix_bound_once (w0 : World) (file : path) (w : World) :
  let g := load_module w0 file in
  ext g = (if String.eqb (sys_platform w0) "darwin" then "dylib" else "so") /\
  libopentrustregion_file g = "libopentrustregion." +:+ ext g /\
  libtestsuite_file g = "libtestsuite." +:+ ext g /\
  exists evs : list event,
    calls (run' g w).1 = calls w ++ evs /\
    forall src dst o,
      Event (CallCopy src dst) o ∈ evs ->
      exists name,
        (name = libopentrustregion_file g \/ name = libtestsuite_file g) /\
        src = build_dir g </> name /\
        dst = package_dir g </> "pyopentrustregion" </> name.
Proof.
  intros g. split; [done|]. split; [done|]. split; [done|].
  destruct (run_shape permitted umask popen build_py_run g w)
    as (k & c & fs' & Hk & Hrun & _).
  set (r := (run' g w).2) in *. clearbody r.
  exists ((returned <$> take k (steps g)) ++ [Event c (raised r)]).
  split; [by rewrite Hrun|]. clear Hrun.
  intros src dst o Hin.
  assert (Hc : CallCopy src dst ∈ steps g).
  { apply elem_of_app in Hin as [Hin|Hin].
    - apply list_elem_of_fmap in Hin as (c' & Hc' & Hin).
      inversion Hc'; subst c'.
      by apply (subseteq_take k (steps g)).
    - apply list_elem_of_singleton in Hin. inversion Hin; subst.
      by apply list_elem_of_lookup_2 in Hk. }
  unfold steps in Hc.
  repeat (apply elem_of_cons in Hc as [Hc|Hc]; [try discriminate Hc|]).
  - inversion Hc; subst. exists (libopentrustregion_file g). auto.
  - inversion Hc; subst. exists (libtestsuite_file g). auto.
  - by apply elem_of_nil in Hc.
Qed.

End Order.

(** ** The build directory and the copies, as file-system operations *)

Section FileSystem.

Variable permitted : FS -> syscall -> bool.
Variable umask : N.




End FileSystem.

(** * The concrete checkout *)

Module Witness.
Import Example Scenario.

(** A good run on Linux: six calls, all returned, both libraries staged
    with the bytes and modes of the build outputs. *)
Example run_on_linux :
  let out := run permit_all umask cmake build_py_ok g linux in
  out.2 = Ok tt /\
  ev_call <$> calls out.1 = steps g /\
  files out.1 !! core_dst = Some (File core_bytes 493%N) /\
  files out.1 !! (root </> "pyopentrustregion" </> "libtestsuite.so")
  = Some (File test_bytes 493%N).
Proof. repeat split; reflexivity. Qed.

(** On macOS the names end in [dylib]. *)
Example names_on_darwin :
  package_data (load_module (MkWorld "darwin" fs0 []) setup_py)
  = [("pyopentrustregion",
      ["libopentrustregion.dylib"; "libtestsuite.dylib"])].
Proof. reflexivity. Qed.

Lemma configure_failure_aborts_witness :
  let failure := CalledProcessError 1 ["cmake"; ".."] in
  let evs := [ returned (CallMakedirs (build_dir g) true);
               Event (CallCheckCall ["cmake"; ".."] (build_dir g))
                     (Some failure) ] in
  run permit_all umask cmake_configure_fails build_py_ok g linux
  = (after linux fs_build evs, Raise failure) /\
  invocations is_compile_call evs = 0 /\
  invocations is_copy_call evs = 0.
Proof.
  apply (configure_failure_aborts permit_all umask cmake_configure_fails
           build_py_ok g linux fs_build fs_build 1%Z).
  - reflexivity.
  - reflexivity.
  - lia.
Defined.

(** The failing build writes in the build directory only. *)
Lemma cmake_build_fails_out_of_source :
  leaves_alone cmake_build_fails (build_dir g) (dest_dir g).
Proof.
  assert (Hout : forall p name,
             dest_dir g `prefix_of` p -> build_dir g </> name <> p).
  { intros p name Hp <-. destruct Hp as [k Hk].
    apply (f_equal (fun l => l !! 2)) in Hk. vm_compute in Hk.
    by destruct k as [|? [|? ?]]. }
  intros cmd fs fs' status H p Hp. unfold cmake_build_fails in H.
  destruct (bool_decide (cmd = ["cmake"; ".."])); inversion H; subst.
  - unfold configured. apply stat_insert_ne; [apply joinpath_nonempty|].
    by apply Hout.
  - apply stat_insert_ne; [apply joinpath_nonempty|]. by apply Hout.
Qed.

Lemma compile_failure_aborts_witness :
  let fs3 := <[core_src := File core_bytes 493%N]> fs_configured in
  let failure := CalledProcessError 1 ["cmake"; "--build"; "."] in
  let evs := [ returned (CallMakedirs (build_dir g) true);
               returned (CallCheckCall ["cmake"; ".."] (build_dir g));
               Event (CallCheckCall ["cmake"; "--build"; "."] (build_dir g))
                     (Some failure) ] in
  run permit_all umask cmake_build_fails build_py_ok g linux
  = (after linux fs3 evs, Raise failure) /\
  invocations is_copy_call evs = 0 /\
  (forall p, dest_dir g `prefix_of` p ->
     stat (files (run permit_all umask cmake_build_fails build_py_ok g linux).1) p
     = stat (files linux) p).
Proof.
  intros fs3 failure evs.
  destruct (compile_failure_aborts permit_all umask cmake_build_fails
              build_py_ok linux setup_py linux fs_build fs_configured fs3 1%Z)
    as (Hrun & Hcopies & _ & Hdest).
  - reflexivity.
  - reflexivity.
  - reflexivity.
  - lia.
  - split; [exact Hrun|]. split; [exact Hcopies|].
    exact (Hdest cmake_build_fails_out_of_source).
Defined.





Lemma missing_package_dir_fails_witness :
  let w := MkWorld "linux" fs_no_package [] in
  let fs1 := <[root </> "build" := Dir 493%N]> fs_no_package in
  let fs3 := built (configured fs1 (root </> "build")) (root </> "build") in
  new_dirs_only (fun q => q `prefix_of` build_dir g) (files w) fs1 /\
  stat fs1 (dest_dir g) = stat (files w) (dest_dir g) /\
  exists e,
    is_OSError e = true /\
    run permit_all umask cmake build_py_ok g w
    = (after w fs3
         [ returned (CallMakedirs (build_dir g) true);
           returned (CallCheckCall ["cmake"; ".."] (build_dir g));
           returned (CallCheckCall ["cmake"; "--build"; "."] (build_dir g));
           Event (CallCopy (build_dir g </> libopentrustregion_file g)
                           (dest_dir g </> libopentrustregion_file g))
                 (Some e) ],
       Raise e) /\
    stat (files (run permit_all umask cmake build_py_ok g w).1) (dest_dir g)
    = None.
Proof.
  intros w fs1 fs3.
  apply (missing_package_dir_fails permit_all umask cmake build_py_ok
           linux setup_py w fs1 (configured fs1 (root </> "build")) fs3).
  - reflexivity.
  - reflexivity.
  - reflexivity.
  - unfold wf_fs. apply (bool_decide_unpack _). vm_compute. exact I.
  - reflexivity.
Defined.

End Witness.

(** * Further behaviour of the script *)

(** ** More on the library calls *)

Section MoreOSFacts.

Variable permitted : FS -> syscall -> bool.
Variable umask : N.


(** On a regular file with an existing parent [makedirs] raises
    [FileExistsError], also with [exist_ok=True], and changes nothing. *)
Lemma makedirs_on_file (name : path) (mode : N) (fs : FS) :
  isfile fs name = true ->
  path_exists fs (parent name) = true ->
  makedirs permitted umask name mode true fs
  = (fs, Raise (OSError FileExistsError name)).
Proof.
  intros Hf Hp. unfold makedirs.
  assert (Hleaf : mkdir_leaf permitted umask name mode true fs
                  = (fs, Raise (OSError FileExistsError name))).
  { unfold mkdir_leaf, try_except, mkdir.
    unfold isfile in Hf. destruct (stat fs name) as [[]|] eqn:E; try done.
    simpl. unfold bind, get, raise, isdir. by rewrite E. }
  destruct (rev name) as [|tail rhead] eqn:Er.
  - apply (f_equal (@rev string)) in Er. rewrite rev_involutive in Er.
    simpl in Er. subst name. discriminate Hf.
  - apply (f_equal (@rev string)) in Er. rewrite rev_involutive in Er.
    rewrite makedirs_rev_cons. rewrite <- Er.
    assert (parent name = rev rhead) as Epar.
    { rewrite Er. simpl. apply parent_joinpath. }
    rewrite Epar in Hp. unfold bind, get. rewrite Hp. simpl. exact Hleaf.
Qed.

(** The file system a [copy] leaves: the one it found, or that one with a
    regular file at the target. *)
Lemma copy_states (src dst : path) (fs fs' : FS) (r : result path) :
  copy permitted umask src dst fs = (fs', r) ->
  fs' = fs \/
  exists data mode,
    copy_target fs src dst <> [] /\
    fs' = <[copy_target fs src dst := File data mode]> fs.
Proof.
  unfold copy. unfold bind at 1. unfold get. fold (copy_target fs src dst).
  generalize (copy_target fs src dst). intros d.
  unfold copyfile, copymode. unfold bind at 1 2. unfold get at 1.
  destruct (samefile fs src d).
  { unfold raise. intros H; inversion H; subst. by left. }
  unfold bind at 1.
  destruct (read_file permitted src fs) as [fs1 r1] eqn:E1.
  apply read_file_inv in E1 as [-> [(data & mode & -> & Esrc)|(k & ->)]];
    [|intros H; inversion H; subst; by left].
  unfold bind at 1.
  destruct (write_file permitted umask d data fs) as [fs2 r2] eqn:E2.
  apply write_file_inv in E2 as [(-> & Hd & m & ->)|(-> & k & ->)];
    [|intros H; inversion H; subst; by left].
  unfold ret at 1. unfold bind at 1 2. unfold get.
  destruct (stat (<[d:=File data m]> fs) src) as [[data' mode'|mode']|];
    [| |unfold raise; intros H; inversion H; subst; right; eauto].
  - destruct (chmod permitted d mode' (<[d:=File data m]> fs))
      as [fs3 r3] eqn:E3.
    apply chmod_inv in E3 as [(-> & n & En & ->)|(-> & k & ->)].
    + rewrite stat_insert_eq in En by done. inversion En; subst n.
      intros H. destruct (ret d _) as [fs4 r4] eqn:E4 in H.
      inversion E4; subst. inversion H; subst.
      right. exists data, mode'. split; [done|]. apply insert_insert_eq.
    + intros H; inversion H; subst. right; eauto.
  - destruct (chmod permitted d mode' (<[d:=File data m]> fs))
      as [fs3 r3] eqn:E3.
    apply chmod_inv in E3 as [(-> & n & En & ->)|(-> & k & ->)].
    + rewrite stat_insert_eq in En by done. inversion En; subst n.
      intros H. destruct (ret d _) as [fs4 r4] eqn:E4 in H.
      inversion E4; subst. inversion H; subst.
      right. exists data, mode'. split; [done|]. apply insert_insert_eq.
    + intros H; inversion H; subst. right; eauto.
Qed.

Lemma copy_mono (src dst : path) (fs fs' : FS) (r : result path) (q : path) :
  copy permitted umask src dst fs = (fs', r) ->
  path_exists fs q = true -> path_exists fs' q = true.
Proof.
  intros H Hq. apply copy_states in H as [->|(data & mode & Hd & ->)];
    [done|].
  unfold path_exists in *. rewrite stat_insert by done.
  by destruct (decide (copy_target fs src dst = q)).
Qed.

(** A copy whose source is missing from an existing directory raises
    [FileNotFoundError] for it and writes nothing. *)
Lemma copy_missing_source (src dst : path) (fs : FS) :
  walk fs [] (parent src) = None ->
  stat fs src = None ->
  copy permitted umask src dst fs
  = (fs, Raise (OSError FileNotFoundError src)).
Proof.
  intros Hw Hs. unfold copy, bind at 1, get.
  unfold copyfile, bind at 1 2, get, samefile, path_exists. rewrite Hs.
  simpl. unfold bind at 1, read_file. by rewrite Hw, Hs.
Qed.

(** A copy whose source lies below something that is not a directory
    raises the error of the path resolution and writes nothing. *)
Lemma copy_unreachable_source (src dst : path) (fs : FS) (kind : os_error_kind) :
  walk fs [] (parent src) = Some kind ->
  stat fs src = None ->
  copy permitted umask src dst fs = (fs, Raise (OSError kind src)).
Proof.
  intros Hw Hs. unfold copy, bind at 1, get.
  unfold copyfile, bind at 1 2, get, samefile, path_exists. rewrite Hs.
  simpl. unfold bind at 1, read_file. by rewrite Hw.
Qed.

End MoreOSFacts.

(** ** The run, call by call *)

Section MoreRunFacts.

Variable permitted : FS -> syscall -> bool.
Variable umask : N.
Variable popen : list string -> path -> FS -> (os_error_kind * path) + (FS * Z).
Variable build_py_run : M FS unit.

Local Abbreviation run' := (run permitted umask popen build_py_run).

Lemma check_call_inv (cmd : list string) (cwd : path) (fs fs' : FS)
      (r : result Z) :
  check_call popen cmd cwd fs = (fs', r) ->
  (exists k f, popen cmd cwd fs = inl (k, f) /\ fs' = fs /\
               r = Raise (OSError k f))
  \/ (popen cmd cwd fs = inr (fs', 0%Z) /\ r = Ok 0%Z)
  \/ (exists status, popen cmd cwd fs = inr (fs', status) /\ status <> 0%Z /\
                      r = Raise (CalledProcessError status cmd)).
Proof.
  unfold check_call, bind, call_process.
  destruct (popen cmd cwd fs) as [[k f]|[fs1 status]].
  - intros H; inversion H; subst. left. eauto.
  - destruct (Z.eqb_spec status 0) as [->|Hs]; intros H; inversion H; subst.
    + right; left. done.
    + right; right. eauto.
Qed.

(** Every run, followed call by call: the state each call is made on, the
    state and result it gives, and what the run is when it raises. *)
Lemma run_cases (g : globals) (w : World) :
  let mk := CallMakedirs (build_dir g) true in
  let conf := CallCheckCall ["cmake"; ".."] (build_dir g) in
  let comp := CallCheckCall ["cmake"; "--build"; "."] (build_dir g) in
  let core := CallCopy (build_dir g </> libopentrustregion_file g)
                       (dest_dir g </> libopentrustregion_file g) in
  let test := CallCopy (build_dir g </> libtestsuite_file g)
                       (dest_dir g </> libtestsuite_file g) in
  exists fs1 r1,
    makedirs permitted umask (build_dir g) 511%N true (files w) = (fs1, r1) /\
    match r1 with
    | Raise e => run' g w = (after w fs1 [Event mk (Some e)], Raise e)
    | Ok _ =>
  exists fs2 r2,
    check_call popen ["cmake"; ".."] (build_dir g) fs1 = (fs2, r2) /\
    match r2 with
    | Raise e =>
        run' g w = (after w fs2 [returned mk; Event conf (Some e)], Raise e)
    | Ok _ =>
  exists fs3 r3,
    check_call popen ["cmake"; "--build"; "."] (build_dir g) fs2 = (fs3, r3) /\
    match r3 with
    | Raise e =>
        run' g w = (after w fs3 [returned mk; returned conf;
                                 Event comp (Some e)], Raise e)
    | Ok _ =>
  exists fs4 r4,
    copy permitted umask (build_dir g </> libopentrustregion_file g)
         (dest_dir g </> libopentrustregion_file g) fs3 = (fs4, r4) /\
    match r4 with
    | Raise e =>
        run' g w = (after w fs4 [returned mk; returned conf; returned comp;
                                 Event core (Some e)], Raise e)
    | Ok _ =>
  exists fs5 r5,
    copy permitted umask (build_dir g </> libtestsuite_file g)
         (dest_dir g </> libtestsuite_file g) fs4 = (fs5, r5) /\
    match r5 with
    | Raise e =>
        run' g w = (after w fs5 [returned mk; returned conf; returned comp;
                                 returned core; Event test (Some e)], Raise e)
    | Ok _ =>
        run' g w
        = (after w (build_py_run fs5).1
             [returned mk; returned conf; returned comp; returned core;
              returned test;
              Event CallSuperRun (raised (build_py_run fs5).2)],
           (build_py_run fs5).2)
    end end end end end.
Proof.
  intros mk conf comp core test.
  unfold run, os_makedirs, subprocess_check_call, shutil_copy, super_run.
  fold (dest_dir g).
  destruct (makedirs permitted umask (build_dir g) 511 true (files w))
    as [fs1 [[]|e1]] eqn:E1; exists fs1; eexists; (split; [reflexivity|]).
  2:{ by rewrite (logged_raise _ _ _ _ _ _ E1). }
  rewrite (logged_ok _ _ _ _ _ _ E1).
  destruct (check_call popen ["cmake"; ".."] (build_dir g) fs1)
    as [fs2 [z2|e2]] eqn:E2; exists fs2; eexists; (split; [reflexivity|]).
  2:{ rewrite (logged_raise _ _ _ _ fs2 e2) by exact E2.
      by rewrite after_after. }
  rewrite (logged_ok _ _ _ _ fs2 z2) by exact E2. rewrite after_after.
  destruct (check_call popen ["cmake"; "--build"; "."] (build_dir g) fs2)
    as [fs3 [z3|e3]] eqn:E3; exists fs3; eexists; (split; [reflexivity|]).
  2:{ rewrite (logged_raise _ _ _ _ fs3 e3) by exact E3.
      by rewrite after_after. }
  rewrite (logged_ok _ _ _ _ fs3 z3) by exact E3. rewrite after_after.
  destruct (copy permitted umask (build_dir g </> libopentrustregion_file g)
              (dest_dir g </> libopentrustregion_file g) fs3)
    as [fs4 [d4|e4]] eqn:E4; exists fs4; eexists; (split; [reflexivity|]).
  2:{ rewrite (logged_raise _ _ _ _ fs4 e4) by exact E4.
      by rewrite after_after. }
  rewrite (logged_ok _ _ _ _ fs4 d4) by exact E4. rewrite after_after.
  destruct (copy permitted umask (build_dir g </> libtestsuite_file g)
              (dest_dir g </> libtestsuite_file g) fs4)
    as [fs5 [d5|e5]] eqn:E5; exists fs5; eexists; (split; [reflexivity|]).
  2:{ rewrite (logged_raise _ _ _ _ fs5 e5) by exact E5.
      by rewrite after_after. }
  rewrite (logged_ok _ _ _ _ fs5 d5) by exact E5. rewrite after_after.
  destruct (build_py_run fs5) as [fs6 r6] eqn:E6.
  rewrite (logged_eq _ _ _ fs6 r6) by exact E6. by rewrite after_after.
Qed.

(** Nothing at or below the package directory is a path in the build
    directory. *)
Lemma below_dest_not_in_build (w0 : World) (file : path) (p : path)
      (name : string) :
  dest_dir (load_module w0 file) `prefix_of` p ->
  p <> build_dir (load_module w0 file) </> name.
Proof.
  unfold dest_dir. simpl. unfold joinpath. intros Hp ->.
  rewrite <- app_assoc in Hp. apply prefix_app_inv in Hp.
  destruct Hp as [k Hk]. simpl in Hk. inversion Hk.
Qed.

Lemma copy_target_below (fs : FS) (src d name : path) :
  d `prefix_of` name -> d `prefix_of` copy_target fs src name.
Proof.
  intros H. unfold copy_target, joinpath.
  destruct (isdir fs name); [by apply prefix_app_r|done].
Qed.

(** ** Failures before the build *)

(** X1. When the build path is a regular file, [exist_ok=True] does not
    help: [os.makedirs] raises [FileExistsError] for it, the run ends with
    that exception after this one call, no process is started, and the file
    system is as it was. *)
Theorem build_path_is_file (g : globals) (w : World) :
  wf_fs (files w) ->
  isfile (files w) (build_dir g) = true ->
  run' g w
  = (after w (files w)
       [Event (CallMakedirs (build_dir g) true)
              (Some (OSError FileExistsError (build_dir g)))],
     Raise (OSError FileExistsError (build_dir g))).
Proof.
  intros Hwf Hf.
  assert (Hp : path_exists (files w) (parent (build_dir g)) = true).
  { destruct (build_dir g) as [|c name'] eqn:Eb; [done|].
    unfold isfile in Hf.
    destruct (stat (files w) (c :: name')) as [n|] eqn:E; [|discriminate Hf].
    assert (E' : files w !! (c :: name') = Some n) by exact E.
    apply Hwf in E' as [_ E']. unfold isdir, path_exists in *.
    by destruct (stat (files w) (parent (c :: name'))) as [[]|]. }
  pose proof (makedirs_on_file permitted umask _ 511%N _ Hf Hp) as Hmk.
  unfold run, os_makedirs.
  by rewrite (logged_raise _ _ _ _ _ _ Hmk).
Qed.

(** X2. When the configure command cannot be started (no [cmake]
    executable, say), [check_call] lets the [OSError] of the launch through:
    it is the outcome of the run, after two calls; the compile command is
    not tried, no copy is made, and the file system is the one
    [os.makedirs] left. *)
Theorem configure_not_startable (g : globals) (w : World) (fs1 : FS)
        (kind : os_error_kind) (filename : path) :
  makedirs permitted umask (build_dir g) 511%N true (files w) = (fs1, Ok tt) ->
  popen ["cmake"; ".."] (build_dir g) fs1 = inl (kind, filename) ->
  let evs := [ returned (CallMakedirs (build_dir g) true);
               Event (CallCheckCall ["cmake"; ".."] (build_dir g))
                     (Some (OSError kind filename)) ] in
  run' g w = (after w fs1 evs, Raise (OSError kind filename)) /\
  invocations is_compile_call evs = 0 /\
  invocations is_copy_call evs = 0.
Proof.
  intros Hmk Hconf evs. split; [|done].
  unfold run, os_makedirs, subprocess_check_call.
  rewrite (logged_ok _ _ _ _ _ _ Hmk).
  assert (Hc : check_call popen ["cmake"; ".."] (build_dir g) fs1
               = (fs1, Raise (OSError kind filename))).
  { unfold check_call, bind, call_process. by rewrite Hconf. }
  rewrite (logged_raise _ _ _ _ fs1 (OSError kind filename)) by exact Hc.
  by rewrite after_after.
Qed.

(** X3. Whenever the configure call is made, it is made after
    [os.makedirs] has returned, on the file system that call left, and in
    it the build directory, the working directory of the command, is a
    directory. *)
Theorem configure_starts_in_build_dir (g : globals) (w : World)
        (evs : list event) (o : option exn) :
  calls (run' g w).1 = calls w ++ evs ->
  evs !! 1 = Some (Event (CallCheckCall ["cmake"; ".."] (build_dir g)) o) ->
  exists fs1,
    makedirs permitted umask (build_dir g) 511%N true (files w) = (fs1, Ok tt) /\
    isdir fs1 (build_dir g) = true /\
    o = raised (check_call popen ["cmake"; ".."] (build_dir g) fs1).2.
Proof.
  intros Hcalls Hev.
  destruct (run_cases g w) as (fs1 & r1 & E1 & H).
  destruct r1 as [[]|e1].
  2:{ rewrite H in Hcalls. simpl in Hcalls. apply app_inv_head in Hcalls.
      subst evs. discriminate Hev. }
  exists fs1. split; [exact E1|]. split.
  { apply makedirs_rev_ok in E1 as [Hd _]. by rewrite rev_involutive in Hd. }
  destruct H as (fs2 & r2 & E2 & H). rewrite E2. simpl.
  destruct r2 as [z2|e2].
  2:{ rewrite H in Hcalls. simpl in Hcalls. apply app_inv_head in Hcalls.
      subst evs. simpl in Hev. by inversion Hev. }
  assert (Hsecond : forall fs' l r,
            run' g w
            = (after w fs'
                 (returned (CallMakedirs (build_dir g) true)
                  :: returned (CallCheckCall ["cmake"; ".."] (build_dir g))
                  :: l), r) -> o = None).
  { intros fs' l r Hr. rewrite Hr in Hcalls. simpl in Hcalls.
    apply app_inv_head in Hcalls. subst evs. simpl in Hev.
    by inversion Hev. }
  destruct H as (fs3 & [z3|e3] & E3 & H); [|by eapply Hsecond].
  destruct H as (fs4 & [d4|e4] & E4 & H); [|by eapply Hsecond].
  destruct H as (fs5 & [d5|e5] & E5 & H); [|by eapply Hsecond].
  by eapply Hsecond.
Qed.

(** ** Failures while staging *)

(** X4. A build that exits with 0 and has not produced the core library:
    the first copy raises an [OSError] for the source path, which is the
    outcome of the run; nothing is written, the second copy is not tried
    and the inherited method is not called. The error is
    [FileNotFoundError] when the build directory is still a directory, and
    [NotADirectoryError] when the build has left a regular file in its
    place. *)
Theorem missing_core_library (g : globals) (w : World) (fs1 fs2 fs3 : FS) :
  makedirs permitted umask (build_dir g) 511%N true (files w) = (fs1, Ok tt) ->
  popen ["cmake"; ".."] (build_dir g) fs1 = inr (fs2, 0%Z) ->
  popen ["cmake"; "--build"; "."] (build_dir g) fs2 = inr (fs3, 0%Z) ->
  wf_fs fs3 ->
  stat fs3 (build_dir g </> libopentrustregion_file g) = None ->
  exists kind,
    let failure :=
      OSError kind (build_dir g </> libopentrustregion_file g) in
    run' g w
    = (after w fs3
         [ returned (CallMakedirs (build_dir g) true);
           returned (CallCheckCall ["cmake"; ".."] (build_dir g));
           returned (CallCheckCall ["cmake"; "--build"; "."] (build_dir g));
           Event (CallCopy (build_dir g </> libopentrustregion_file g)
                           (dest_dir g </> libopentrustregion_file g))
                 (Some failure) ],
       Raise failure) /\
    (kind = FileNotFoundError \/ kind = NotADirectoryError) /\
    (isdir fs3 (build_dir g) = true -> kind = FileNotFoundError) /\
    (isfile fs3 (build_dir g) = true -> kind = NotADirectoryError).
Proof.
  intros Hmk Hconf Hbuild Hwf Hsrc.
  assert (Hrun : forall kind,
    copy permitted umask (build_dir g </> libopentrustregion_file g)
         (dest_dir g </> libopentrustregion_file g) fs3
    = (fs3, Raise (OSError kind (build_dir g </> libopentrustregion_file g))) ->
    run' g w
    = (after w fs3
         [ returned (CallMakedirs (build_dir g) true);
           returned (CallCheckCall ["cmake"; ".."] (build_dir g));
           returned (CallCheckCall ["cmake"; "--build"; "."] (build_dir g));
           Event (CallCopy (build_dir g </> libopentrustregion_file g)
                           (dest_dir g </> libopentrustregion_file g))
                 (Some (OSError kind
                          (build_dir g </> libopentrustregion_file g))) ],
       Raise (OSError kind (build_dir g </> libopentrustregion_file g)))).
  { intros kind Hcp.
    unfold run, os_makedirs, subprocess_check_call, shutil_copy.
    fold (dest_dir g).
    rewrite (logged_ok _ _ _ _ _ _ Hmk).
    pose proof (check_call_exit_zero popen _ _ _ _ Hconf) as Hc.
    rewrite (logged_ok _ _ _ _ fs2 0%Z) by exact Hc.
    rewrite after_after.
    pose proof (check_call_exit_zero popen _ _ _ _ Hbuild) as Hb.
    rewrite (logged_ok _ _ _ _ fs3 0%Z) by exact Hb.
    rewrite after_after.
    rewrite (logged_raise _ _ _ _ fs3
               (OSError kind (build_dir g </> libopentrustregion_file g)))
      by exact Hcp.
    by rewrite after_after. }
  destruct (walk fs3 [] (build_dir g)) as [kind|] eqn:Ew.
  - exists kind. split; [|split; [|split]].
    + apply Hrun. apply copy_unreachable_source; [|done].
      by rewrite parent_joinpath.
    + by apply walk_kinds in Ew.
    + intros Hd. by rewrite (walk_wf_dir _ _ Hwf Hd) in Ew.
    + intros Hf. rewrite (walk_wf_file _ _ Hwf Hf) in Ew. by inversion Ew.
  - exists FileNotFoundError. split; [|split; [|split]].
    + apply Hrun. apply copy_missing_source; [|done].
      by rewrite parent_joinpath.
    + by left.
    + done.
    + intros Hf. by rewrite (walk_wf_file _ _ Hwf Hf) in Ew.
Qed.

(** X5. No rollback. The core library has been copied and the test-suite
    library is missing from the build directory: the second copy raises
    [FileNotFoundError] for its source, the run ends with it before the
    inherited method, and the core library stays where the first copy put
    it, with the bytes and mode of its source. *)
Theorem partial_staging_is_kept (w0 : World) (file : path) (w : World)
        (fs1 fs2 fs3 fs4 : FS) (d : path) :
  let g := load_module w0 file in
  makedirs permitted umask (build_dir g) 511%N true (files w) = (fs1, Ok tt) ->
  popen ["cmake"; ".."] (build_dir g) fs1 = inr (fs2, 0%Z) ->
  popen ["cmake"; "--build"; "."] (build_dir g) fs2 = inr (fs3, 0%Z) ->
  copy permitted umask (build_dir g </> libopentrustregion_file g)
       (dest_dir g </> libopentrustregion_file g) fs3 = (fs4, Ok d) ->
  stat fs3 (build_dir g </> libtestsuite_file g) = None ->
  let failure :=
    OSError FileNotFoundError (build_dir g </> libtestsuite_file g) in
  run' g w
  = (after w fs4
       [ returned (CallMakedirs (build_dir g) true);
         returned (CallCheckCall ["cmake"; ".."] (build_dir g));
         returned (CallCheckCall ["cmake"; "--build"; "."] (build_dir g));
         returned (CallCopy (build_dir g </> libopentrustregion_file g)
                            (dest_dir g </> libopentrustregion_file g));
         Event (CallCopy (build_dir g </> libtestsuite_file g)
                         (dest_dir g </> libtestsuite_file g))
               (Some failure) ],
     Raise failure) /\
  exists data mode,
    stat fs3 (build_dir g </> libopentrustregion_file g)
    = Some (File data mode) /\
    stat (files (run' g w).1) d = Some (File data mode).
Proof.
  intros g Hmk Hconf Hbuild Hcore Htest failure.
  pose proof (copy_inv _ _ _ _ _ _ _ Hcore) as Hinv. cbv zeta in Hinv.
  destruct Hinv as (Hframe & Hd & _ & data & mode & Hsrc & Hdst).
  assert (Hbelow : dest_dir g `prefix_of`
                   copy_target fs3 (build_dir g </> libopentrustregion_file g)
                     (dest_dir g </> libopentrustregion_file g)).
  { apply copy_target_below. by apply prefix_app_r. }
  assert (Htest4 : stat fs4 (build_dir g </> libtestsuite_file g) = None).
  { rewrite Hframe; [done|]. intros Heq.
    eapply (below_dest_not_in_build w0 file); [|symmetry; exact Heq].
    exact Hbelow. }
  assert (Hwalk4 : walk fs4 [] (parent (build_dir g </> libtestsuite_file g))
                   = None).
  { pose proof (copy_ok_walk _ _ _ _ _ _ _ Hcore) as Hwalk3.
    rewrite parent_joinpath in *. rewrite <- Hwalk3.
    apply walk_frame. intros q Hq. apply Hframe. intros ->.
    by apply (dest_not_towards_build w0 file _ Hbelow). }
  assert (Hrun : run' g w = (after w fs4
       [ returned (CallMakedirs (build_dir g) true);
         returned (CallCheckCall ["cmake"; ".."] (build_dir g));
         returned (CallCheckCall ["cmake"; "--build"; "."] (build_dir g));
         returned (CallCopy (build_dir g </> libopentrustregion_file g)
                            (dest_dir g </> libopentrustregion_file g));
         Event (CallCopy (build_dir g </> libtestsuite_file g)
                         (dest_dir g </> libtestsuite_file g))
               (Some failure) ], Raise failure)).
  { unfold run, os_makedirs, subprocess_check_call, shutil_copy.
    fold (dest_dir g).
    rewrite (logged_ok _ _ _ _ _ _ Hmk).
    pose proof (check_call_exit_zero popen _ _ _ _ Hconf) as Hc.
    rewrite (logged_ok _ _ _ _ fs2 0%Z) by exact Hc.
    rewrite after_after.
    pose proof (check_call_exit_zero popen _ _ _ _ Hbuild) as Hb.
    rewrite (logged_ok _ _ _ _ fs3 0%Z) by exact Hb.
    rewrite after_after.
    rewrite (logged_ok _ _ _ _ fs4 d) by exact Hcore.
    rewrite after_after.
    pose proof (copy_missing_source permitted umask _
                  (dest_dir g </> libtestsuite_file g) _ Hwalk4 Htest4) as Hcp.
    rewrite (logged_raise _ _ _ _ fs4 failure) by exact Hcp.
    by rewrite after_after. }
  split; [exact Hrun|]. exists data, mode. split; [exact Hsrc|].
  rewrite Hrun. simpl. by rewrite Hd.
Qed.

(** ** What a run never does *)


(** X9. The script removes nothing. When neither the external commands
    nor the inherited method remove a path, every path that exists before a
    run exists after it, however the run ends: the build directory and the
    staged libraries of earlier runs are never cleaned. *)
Theorem run_never_deletes (g : globals) (w : World) :
  (forall cmd cwd fs fs' status,
     popen cmd cwd fs = inr (fs', status) ->
     forall p, path_exists fs p = true -> path_exists fs' p = true) ->
  (forall fs p, path_exists fs p = true ->
                path_exists (build_py_run fs).1 p = true) ->
  forall p, path_exists (files w) p = true ->
            path_exists (files (run' g w).1) p = true.
Proof.
  intros Hpopen Hbase p Hp.
  assert (Hcc : forall cmd fs fs' r,
            check_call popen cmd (build_dir g) fs = (fs', r) ->
            path_exists fs p = true -> path_exists fs' p = true).
  { intros cmd fs fs' r H Hfs.
    apply check_call_inv in H
      as [(k & f & _ & -> & _)|[(H & _)|(status & H & _)]];
      [done|by eapply Hpopen|by eapply Hpopen]. }
  destruct (run_cases g w)
    as (fs1 & r1 & E1 & H).
  assert (H1 : path_exists fs1 p = true).
  { pose proof (makedirs_rev_new_dirs _ _ _ _ _ _ _ _ E1) as Hn.
    unfold path_exists in *.
    destruct (stat (files w) p) as [n|] eqn:E; [|done].
    by rewrite (new_dirs_only_mono _ _ _ _ _ Hn E). }
  destruct r1 as [[]|e1]; [|by rewrite H].
  destruct H as (fs2 & r2 & E2 & H).
  pose proof (Hcc _ _ _ _ E2 H1) as H2.
  destruct r2 as [z2|e2]; [|by rewrite H].
  destruct H as (fs3 & r3 & E3 & H).
  pose proof (Hcc _ _ _ _ E3 H2) as H3.
  destruct r3 as [z3|e3]; [|by rewrite H].
  destruct H as (fs4 & r4 & E4 & H).
  pose proof (copy_mono _ _ _ _ _ _ _ p E4 H3) as H4.
  destruct r4 as [d4|e4]; [|by rewrite H].
  destruct H as (fs5 & r5 & E5 & H).
  pose proof (copy_mono _ _ _ _ _ _ _ p E5 H4) as H5.
  destruct r5 as [d5|e5]; [|by rewrite H].
  rewrite H. simpl. by apply Hbase.
Qed.

End MoreRunFacts.

(** ** A directory in the place of a library *)

Section MoreStaging.

Variable permitted : FS -> syscall -> bool.
Variable umask : N.

(** X10. When the destination path of a library is an existing directory,
    the copy does not replace it: a copy that returns has put the library
    inside that directory, under its own file name, with the bytes and mode
    of the source, and the destination path is a directory as before. *)
Theorem destination_directory_is_entered (g : globals) (name : string)
        (fs fs' : FS) (d : path) :
  isdir fs (dest_dir g </> name) = true ->
  copy permitted umask (build_dir g </> name) (dest_dir g </> name) fs
  = (fs', Ok d) ->
  d = dest_dir g </> name </> name /\
  isdir fs' (dest_dir g </> name) = true /\
  isfile fs' d = true /\
  stat fs' d = stat fs (build_dir g </> name).
Proof.
  intros Hdir Hcopy. apply copy_inv in Hcopy. cbv zeta in Hcopy.
  destruct Hcopy as (Hframe & Hd & _ & data & mode & Hsrc & Hdst).
  unfold copy_target in Hd, Hframe, Hdst. rewrite Hdir in Hd, Hframe, Hdst.
  rewrite basename_joinpath in Hd, Hframe, Hdst. subst d.
  split; [done|]. split.
  - unfold isdir in *. rewrite Hframe; [done|].
    intros H. symmetry in H. by apply joinpath_not_self in H.
  - unfold isfile. rewrite Hdst. split; [done|]. by rewrite Hsrc.
Qed.

End MoreStaging.

(** * The further situations, on the concrete checkout *)

Module MoreWitness.
Import Example Scenario.

Lemma build_path_is_file_witness :
  run permit_all umask cmake build_py_ok g (MkWorld "linux" fs_build_is_file [])
  = (after (MkWorld "linux" fs_build_is_file []) fs_build_is_file
       [Event (CallMakedirs (build_dir g) true)
              (Some (OSError FileExistsError (build_dir g)))],
     Raise (OSError FileExistsError (build_dir g))).
Proof.
  apply (build_path_is_file permit_all umask cmake build_py_ok g
           (MkWorld "linux" fs_build_is_file [])).
  - unfold wf_fs. apply (bool_decide_unpack _). vm_compute. exact I.
  - reflexivity.
Defined.

Lemma configure_not_startable_witness :
  let evs := [ returned (CallMakedirs (build_dir g) true);
               Event (CallCheckCall ["cmake"; ".."] (build_dir g))
                     (Some (OSError FileNotFoundError ["cmake"])) ] in
  run permit_all umask no_cmake build_py_ok g linux
  = (after linux fs_build evs, Raise (OSError FileNotFoundError ["cmake"])) /\
  invocations is_compile_call evs = 0 /\
  invocations is_copy_call evs = 0.
Proof.
  apply (configure_not_startable permit_all umask no_cmake build_py_ok g
           linux fs_build FileNotFoundError ["cmake"]).
  - reflexivity.
  - reflexivity.
Defined.

Lemma configure_starts_in_build_dir_witness :
  exists fs1,
    makedirs permit_all umask (build_dir g) 511%N true (files linux)
    = (fs1, Ok tt) /\
    isdir fs1 (build_dir g) = true /\
    Some (CalledProcessError 1 ["cmake"; ".."])
    = raised (check_call cmake_configure_fails ["cmake"; ".."]
                (build_dir g) fs1).2.
Proof.
  apply (configure_starts_in_build_dir permit_all umask cmake_configure_fails
           build_py_ok g linux
           [ returned (CallMakedirs (build_dir g) true);
             Event (CallCheckCall ["cmake"; ".."] (build_dir g))
                   (Some (CalledProcessError 1 ["cmake"; ".."])) ]).
  - reflexivity.
  - reflexivity.
Defined.

Lemma missing_core_library_witness :
  exists kind,
    let failure :=
      OSError kind (build_dir g </> libopentrustregion_file g) in
    run permit_all umask cmake_builds_nothing build_py_ok g linux
    = (after linux fs_configured
         [ returned (CallMakedirs (build_dir g) true);
           returned (CallCheckCall ["cmake"; ".."] (build_dir g));
           returned (CallCheckCall ["cmake"; "--build"; "."] (build_dir g));
           Event (CallCopy (build_dir g </> libopentrustregion_file g)
                           (dest_dir g </> libopentrustregion_file g))
                 (Some failure) ],
       Raise failure) /\
    (kind = FileNotFoundError \/ kind = NotADirectoryError) /\
    (isdir fs_configured (build_dir g) = true -> kind = FileNotFoundError) /\
    (isfile fs_configured (build_dir g) = true -> kind = NotADirectoryError).
Proof.
  apply (missing_core_library permit_all umask cmake_builds_nothing
           build_py_ok g linux fs_build fs_configured fs_configured).
  - reflexivity.
  - reflexivity.
  - reflexivity.
  - unfold wf_fs. apply (bool_decide_unpack _). vm_compute. exact I.
  - reflexivity.
Defined.

(** The build leaves a regular file where the build directory was: the
    first copy raises [NotADirectoryError]. *)
Example build_dir_clobbered :
  (run permit_all umask cmake_clobbers_build_dir build_py_ok g linux).2
  = Raise (OSError NotADirectoryError
             (build_dir g </> libopentrustregion_file g)).
Proof. reflexivity. Qed.

Lemma partial_staging_is_kept_witness :
  let fs4 := <[core_dst := File core_bytes 493%N]> fs_core_only in
  let failure :=
    OSError FileNotFoundError (build_dir g </> libtestsuite_file g) in
  run permit_all umask cmake_builds_core_only build_py_ok g linux
  = (after linux fs4
       [ returned (CallMakedirs (build_dir g) true);
         returned (CallCheckCall ["cmake"; ".."] (build_dir g));
         returned (CallCheckCall ["cmake"; "--build"; "."] (build_dir g));
         returned (CallCopy (build_dir g </> libopentrustregion_file g)
                            (dest_dir g </> libopentrustregion_file g));
         Event (CallCopy (build_dir g </> libtestsuite_file g)
                         (dest_dir g </> libtestsuite_file g))
               (Some failure) ],
     Raise failure) /\
  exists data mode,
    stat fs_core_only (build_dir g </> libopentrustregion_file g)
    = Some (File data mode) /\
    stat (files (run permit_all umask cmake_builds_core_only build_py_ok
                   g linux).1) core_dst
    = Some (File data mode).
Proof.
  intros fs4 failure.
  apply (partial_staging_is_kept permit_all umask cmake_builds_core_only
           build_py_ok linux setup_py linux fs_build fs_configured
           fs_core_only fs4 core_dst).
  - reflexivity.
  - reflexivity.
  - reflexivity.
  - reflexivity.
  - reflexivity.
Defined.


Lemma path_exists_insert (fs : FS) (p q : path) (n : node) :
  path_exists fs q = true -> path_exists (<[p := n]> fs) q = true.
Proof.
  unfold path_exists. destruct q as [|c q]; [done|]. simpl.
  rewrite lookup_insert. by destruct (decide (p = c :: q)).
Qed.

(** CMake, as it is in [Example.cmake], removes nothing. *)
Lemma cmake_removes_nothing (cmd : list string) (cwd : path) (fs fs' : FS)
      (status : Z) :
  cmake cmd cwd fs = inr (fs', status) ->
  forall p, path_exists fs p = true -> path_exists fs' p = true.
Proof.
  unfold cmake, configured, built. intros H p Hp.
  destruct (bool_decide (cmd = ["cmake"; ".."])); inversion H; subst.
  - by apply path_exists_insert.
  - by do 2 apply path_exists_insert.
Qed.

Lemma run_never_deletes_witness :
  path_exists (files (run permit_all umask cmake build_py_ok g linux).1)
              setup_py = true.
Proof.
  apply (run_never_deletes permit_all umask cmake build_py_ok g linux).
  - exact cmake_removes_nothing.
  - intros fs p Hp. exact Hp.
  - reflexivity.
Defined.

Lemma destination_directory_is_entered_witness :
  let fs' := <[core_dst </> "libopentrustregion.so" := File core_bytes 493%N]>
               fs_dst_is_dir in
  core_dst </> "libopentrustregion.so"
  = dest_dir g </> "libopentrustregion.so" </> "libopentrustregion.so" /\
  isdir fs' (dest_dir g </> "libopentrustregion.so") = true /\
  isfile fs' (core_dst </> "libopentrustregion.so") = true /\
  stat fs' (core_dst </> "libopentrustregion.so")
  = stat fs_dst_is_dir (build_dir g </> "libopentrustregion.so").
Proof.
  intros fs'.
  apply (destination_directory_is_entered permit_all umask g
           "libopentrustregion.so" fs_dst_is_dir fs'
           (core_dst </> "libopentrustregion.so")).
  - reflexivity.
  - reflexivity.
Defined.

End MoreWitness.
